(** * akita_fastapi.testclient: HAR capture around the FastAPI test client

    A shallow embedding of [src/akita_fastapi/testclient.py]:

    - [requests_to_har_entry], the builder that turns a start instant, a
      [requests.Request] and a [requests.Response] into one HAR entry;
    - [TestClient.request], which reads the clock, delegates the call to the
      FastAPI test client, builds the entry and writes it to the HAR writer.

    Python values are modelled as follows.  A [str] is a list of Unicode code
    points and a [bytes] object a list of octets, both over [N], so that the
    difference between [len] of a text and the size of its encoding stays
    visible.  Exceptions are an explicit error type, one constructor per raise
    site.  The clock, the network and the HAR file are threaded explicitly
    through [TestClient.request].

    The functions of the Python standard library that the module calls
    ([urllib.parse.urlsplit], [parse_qs], [urlunparse], the [utf-8] and [utf-7]
    codecs) are embedded after CPython 3.11.  [request.prepare()] of
    [requests], [urljoin] and the [request] method of the parent class are
    parameters of the development.  The value objects and the writer of
    [akita_har], which the repository imports, are modelled from the
    specification. *)

From Stdlib Require Import List NArith ZArith QArith Bool String Ascii Lia.
From Stdlib Require Import Permutation.
Import ListNotations.

Local Open Scope N_scope.

(** ** Python strings and bytes *)

Definition codepoint := N.
Definition pystr := list codepoint.
Definition pybytes := list N.

(** A Rocq string literal read as a Python [str] of ASCII characters. *)
Definition lit (s : string) : pystr :=
  map N_of_ascii (list_ascii_of_string s).

(** One character given by a one-character literal (0 for anything else). *)
Definition chr (s : string) : codepoint :=
  match lit s with
  | [c] => c
  | _ => 0
  end.

Definition dquote : codepoint := 34.

Fixpoint str_eqb (a b : pystr) : bool :=
  match a, b with
  | [], [] => true
  | x :: a', y :: b' => (x =? y) && str_eqb a' b'
  | _, _ => false
  end.

Definition is_empty {A : Type} (l : list A) : bool :=
  match l with
  | [] => true
  | _ :: _ => false
  end.

(** [c in s] for a single character [c]. *)
Definition contains (c : codepoint) (s : pystr) : bool :=
  existsb (N.eqb c) s.

(** [len(s)]. *)
Definition len {A : Type} (s : list A) : Z := Z.of_nat (List.length s).

(** [sep.join(parts)]. *)
Fixpoint join (sep : pystr) (parts : list pystr) : pystr :=
  match parts with
  | [] => []
  | [p] => p
  | p :: rest => p ++ sep ++ join sep rest
  end.

(** [s.split(c)] for a one-character separator: always at least one piece. *)
Fixpoint split_on (c : codepoint) (s : pystr) : list pystr :=
  match s with
  | [] => [[]]
  | x :: t =>
      if x =? c then [] :: split_on c t
      else match split_on c t with
           | h :: r => (x :: h) :: r
           | [] => [[x]]
           end
  end.

(** [s.split(c, 1)] when [c] occurs in [s]: the text before the first [c] and
    the text after it; [None] when [c] does not occur. *)
Fixpoint split_once (c : codepoint) (s : pystr) : option (pystr * pystr) :=
  match s with
  | [] => None
  | x :: t =>
      if x =? c then Some ([], t)
      else match split_once c t with
           | Some (a, b) => Some (x :: a, b)
           | None => None
           end
  end.

(** [s.replace(a, b)] for single characters. *)
Definition replace_char (a b : codepoint) (s : pystr) : pystr :=
  map (fun x => if x =? a then b else x) s.

Definition is_upper_ascii (c : codepoint) : bool := (65 <=? c) && (c <=? 90).
Definition is_lower_ascii (c : codepoint) : bool := (97 <=? c) && (c <=? 122).
Definition is_digit (c : codepoint) : bool := (48 <=? c) && (c <=? 57).
Definition is_ascii_alpha (c : codepoint) : bool :=
  is_upper_ascii c || is_lower_ascii c.

(** [str.lower] on the ASCII letters; every other character is left as it is.
    The module lowers only URL schemes (made of ASCII scheme characters) and
    compares header names with ["content-type"], for which no character
    outside ASCII lowers to one of its letters. *)
Definition lower_char (c : codepoint) : codepoint :=
  if is_upper_ascii c then c + 32 else c.

Definition lower (s : pystr) : pystr := map lower_char s.

(** ** Results and exceptions *)

Inductive result (E A : Type) : Type :=
| Ok (a : A)
| Err (e : E).

Arguments Ok {E A} a.
Arguments Err {E A} e.

Definition bind {E A B : Type} (r : result E A) (k : A -> result E B)
  : result E B :=
  match r with
  | Ok a => k a
  | Err e => Err e
  end.

Notation "x <- r ;; k" := (bind r (fun x => k))
  (at level 61, r at next level, right associativity).

Definition of_option {E A : Type} (e : E) (o : option A) : result E A :=
  match o with
  | Some a => Ok a
  | None => Err e
  end.

(** The exceptions of the builder, by the place that raises them. *)
Inductive build_error (PrepareExn : Type) : Type :=
| InvalidTimestamp
    (* line 38: ValueError('start datetime must be timezone-aware') *)
| PrepareFailed (e : PrepareExn)
    (* line 43: whatever request.prepare() raises *)
| InvalidURL
    (* line 45: ValueError of parse.urlsplit on the network location *)
| HeadersNotEncodable
    (* lines 49 and 74: UnicodeEncodeError of .encode("utf-8") *)
| BodyNotBytes
    (* line 50: AttributeError, a str body has no .decode *)
| BodyNotDecodable
    (* line 50: UnicodeDecodeError of .decode("utf-7") *)
| NoHeaders
    (* line 66: TypeError of prepared.headers[...] when headers is None *)
| MissingContentType
    (* line 66: KeyError of prepared.headers['Content-Type'] *).

Arguments InvalidTimestamp {PrepareExn}.
Arguments PrepareFailed {PrepareExn} e.
Arguments InvalidURL {PrepareExn}.
Arguments HeadersNotEncodable {PrepareExn}.
Arguments BodyNotBytes {PrepareExn}.
Arguments BodyNotDecodable {PrepareExn}.
Arguments NoHeaders {PrepareExn}.
Arguments MissingContentType {PrepareExn}.

(** The exceptions of [TestClient.request], by the place that raises them. *)
Inductive request_error (PrepareExn TransportExn : Type) : Type :=
| TransportFailed (e : TransportExn)
    (* line 145: whatever super().request raises *)
| RecordingFailed (e : build_error PrepareExn)
    (* line 163: what requests_to_har_entry raises *)
| SinkClosed
    (* line 163: write_entry on a HAR writer that was closed *).

Arguments TransportFailed {PrepareExn TransportExn} e.
Arguments RecordingFailed {PrepareExn TransportExn} e.
Arguments SinkClosed {PrepareExn TransportExn}.

(** ** The utf-8 codec *)

Definition is_surrogate (c : codepoint) : bool :=
  (0xD800 <=? c) && (c <=? 0xDFFF).

(** [chr(c).encode("utf-8")]; [None] stands for [UnicodeEncodeError], raised
    for a lone surrogate. *)
Definition utf8_encode_char (c : codepoint) : option pybytes :=
  if c <? 0x80 then Some [c]
  else if c <? 0x800 then
    Some [N.lor 0xC0 (N.shiftr c 6); N.lor 0x80 (N.land c 0x3F)]
  else if c <? 0x10000 then
    if is_surrogate c then None
    else Some [N.lor 0xE0 (N.shiftr c 12);
               N.lor 0x80 (N.land (N.shiftr c 6) 0x3F);
               N.lor 0x80 (N.land c 0x3F)]
  else if c <? 0x110000 then
    Some [N.lor 0xF0 (N.shiftr c 18);
          N.lor 0x80 (N.land (N.shiftr c 12) 0x3F);
          N.lor 0x80 (N.land (N.shiftr c 6) 0x3F);
          N.lor 0x80 (N.land c 0x3F)]
  else None.

(** [s.encode("utf-8")]. *)
Fixpoint utf8_encode (s : pystr) : option pybytes :=
  match s with
  | [] => Some []
  | c :: t =>
      match utf8_encode_char c, utf8_encode t with
      | Some bs, Some rest => Some (bs ++ rest)
      | _, _ => None
      end
  end.

Definition is_cont (b : N) : bool := (0x80 <=? b) && (b <=? 0xBF).
Definition in_range (lo hi b : N) : bool := (lo <=? b) && (b <=? hi).
Definition cont_bits (b : N) : N := N.land b 0x3F.
Definition replacement : codepoint := 0xFFFD.

(** The range allowed for the second octet of a three-octet sequence. *)
Definition second_of_3 (b0 b1 : N) : bool :=
  if b0 =? 0xE0 then in_range 0xA0 0xBF b1
  else if b0 =? 0xED then in_range 0x80 0x9F b1
  else is_cont b1.

(** The range allowed for the second octet of a four-octet sequence. *)
Definition second_of_4 (b0 b1 : N) : bool :=
  if b0 =? 0xF0 then in_range 0x90 0xBF b1
  else if b0 =? 0xF4 then in_range 0x80 0x8F b1
  else is_cont b1.

(** [bs.decode("utf-8", "replace")]: every maximal ill-formed prefix of a
    sequence becomes one U+FFFD. *)
Fixpoint utf8_decode_replace (bs : pybytes) : pystr :=
  match bs with
  | [] => []
  | b0 :: t0 =>
      if b0 <? 0x80 then b0 :: utf8_decode_replace t0
      else if in_range 0xC2 0xDF b0 then
        match t0 with
        | b1 :: t1 =>
            if is_cont b1
            then N.lor (N.shiftl (N.land b0 0x1F) 6) (cont_bits b1)
                 :: utf8_decode_replace t1
            else replacement :: utf8_decode_replace t0
        | [] => [replacement]
        end
      else if in_range 0xE0 0xEF b0 then
        match t0 with
        | b1 :: t1 =>
            if second_of_3 b0 b1 then
              match t1 with
              | b2 :: t2 =>
                  if is_cont b2
                  then N.lor (N.shiftl (N.land b0 0x0F) 12)
                         (N.lor (N.shiftl (cont_bits b1) 6) (cont_bits b2))
                       :: utf8_decode_replace t2
                  else replacement :: utf8_decode_replace t1
              | [] => [replacement]
              end
            else replacement :: utf8_decode_replace t0
        | [] => [replacement]
        end
      else if in_range 0xF0 0xF4 b0 then
        match t0 with
        | b1 :: t1 =>
            if second_of_4 b0 b1 then
              match t1 with
              | b2 :: t2 =>
                  if is_cont b2 then
                    match t2 with
                    | b3 :: t3 =>
                        if is_cont b3
                        then N.lor (N.shiftl (N.land b0 0x07) 18)
                               (N.lor (N.shiftl (cont_bits b1) 12)
                                  (N.lor (N.shiftl (cont_bits b2) 6)
                                     (cont_bits b3)))
                             :: utf8_decode_replace t3
                        else replacement :: utf8_decode_replace t2
                    | [] => [replacement]
                    end
                  else replacement :: utf8_decode_replace t1
              | [] => [replacement]
              end
            else replacement :: utf8_decode_replace t0
        | [] => [replacement]
        end
      else replacement :: utf8_decode_replace t0
  end.

(** ** The utf-7 codec (decoding, strict) *)

Definition is_base64 (c : N) : bool :=
  is_upper_ascii c || is_lower_ascii c || is_digit c
  || (c =? chr "+") || (c =? chr "/").

Definition from_base64 (c : N) : N :=
  if is_upper_ascii c then c - 65
  else if is_lower_ascii c then c - 97 + 26
  else if is_digit c then c - 48 + 52
  else if c =? chr "+" then 62
  else 63.

(** A character that decodes as itself outside a base-64 section. *)
Definition decode_direct (c : N) : bool := (c <=? 127) && negb (c =? chr "+").

Definition is_high_surrogate (c : N) : bool := in_range 0xD800 0xDBFF c.
Definition is_low_surrogate (c : N) : bool := in_range 0xDC00 0xDFFF c.

Definition join_surrogates (hi lo : N) : codepoint :=
  0x10000 + N.lor (N.shiftl (N.land hi 0x3FF) 10) (N.land lo 0x3FF).

Definition option_map_cons (c : codepoint) (o : option pystr) : option pystr :=
  option_map (cons c) o.

(** The decoder loop of the [utf-7] codec with [errors="strict"].  [inShift]
    tells whether a base-64 section is open, [bits] and [buf] hold the bits
    read in it and not yet written, [sur] a pending high surrogate (0 for
    none).  [None] stands for [UnicodeDecodeError]. *)
Fixpoint utf7_decode_from (inShift : bool) (bits buf sur : N) (s : pybytes)
  : option pystr :=
  match s with
  | [] =>
      if inShift
         && (negb (sur =? 0) || (6 <=? bits)
             || ((0 <? bits) && negb (buf =? 0)))
      then None
      else Some []
  | ch :: rest =>
      if inShift then
        if is_base64 ch then
          let buf1 := N.lor (N.shiftl buf 6) (from_base64 ch) in
          let bits1 := bits + 6 in
          if 16 <=? bits1 then
            let outCh := N.shiftr buf1 (bits1 - 16) in
            let bits2 := bits1 - 16 in
            let buf2 := N.land buf1 (N.ones bits2) in
            if negb (sur =? 0) then
              if is_low_surrogate outCh then
                option_map_cons (join_surrogates sur outCh)
                  (utf7_decode_from true bits2 buf2 0 rest)
              else if is_high_surrogate outCh then
                option_map_cons sur
                  (utf7_decode_from true bits2 buf2 outCh rest)
              else
                option_map_cons sur
                  (option_map_cons outCh
                     (utf7_decode_from true bits2 buf2 0 rest))
            else if is_high_surrogate outCh then
              utf7_decode_from true bits2 buf2 outCh rest
            else
              option_map_cons outCh (utf7_decode_from true bits2 buf2 0 rest)
          else utf7_decode_from true bits1 buf1 sur rest
        else
          (* leaving the base-64 section *)
          if 6 <=? bits then None
          else if (0 <? bits) && negb (buf =? 0) then None
          else
            let pending :=
              if negb (sur =? 0) && decode_direct ch then [sur] else [] in
            if ch =? chr "-" then
              option_map (app pending) (utf7_decode_from false bits buf 0 rest)
            else if decode_direct ch then
              (* [ch] ends the section and is then read as itself *)
              option_map (fun r => pending ++ ch :: r)
                (utf7_decode_from false bits buf 0 rest)
            else None
      else if ch =? chr "+" then
        match rest with
        | c2 :: rest2 =>
            if c2 =? chr "-" then
              option_map_cons (chr "+")
                (utf7_decode_from false bits buf sur rest2)
            else if negb (is_base64 c2) then None
            else utf7_decode_from true 0 0 0 rest
        | [] => utf7_decode_from true 0 0 0 rest
        end
      else if decode_direct ch then
        option_map_cons ch (utf7_decode_from false bits buf sur rest)
      else None
  end.

(** [bs.decode("utf-7")]. *)
Definition utf7_decode (bs : pybytes) : option pystr :=
  utf7_decode_from false 0 0 0 bs.

(** ** urllib.parse *)

Definition scheme_chars (c : codepoint) : bool :=
  is_lower_ascii c || is_upper_ascii c || is_digit c
  || (c =? chr "+") || (c =? chr "-") || (c =? chr ".").

Definition uses_netloc : list pystr :=
  map lit [""; "ftp"; "http"; "gopher"; "nntp"; "telnet";
           "imap"; "wais"; "file"; "mms"; "https"; "shttp";
           "snews"; "prospero"; "rtsp"; "rtspu"; "rsync";
           "svn"; "svn+ssh"; "sftp"; "nfs"; "git"; "git+ssh";
           "ws"; "wss"]%string.

Record SplitResult : Type := mkSplitResult {
  scheme : pystr;
  netloc : pystr;
  path : pystr;
  query : pystr;
  fragment : pystr
}.

(** [url.lstrip(_WHATWG_C0_CONTROL_OR_SPACE)]. *)
Fixpoint lstrip_c0 (s : pystr) : pystr :=
  match s with
  | [] => []
  | c :: t => if c <=? 0x20 then lstrip_c0 t else s
  end.

(** Tab, carriage return and line feed are removed from the URL. *)
Definition remove_unsafe (s : pystr) : pystr :=
  filter (fun c => negb ((c =? 9) || (c =? 13) || (c =? 10))) s.

Definition is_netloc_delim (c : codepoint) : bool :=
  (c =? chr "/") || (c =? chr "?") || (c =? chr "#").

(** The longest prefix free of [p], and what follows it. *)
Fixpoint span_until (p : codepoint -> bool) (s : pystr) : pystr * pystr :=
  match s with
  | [] => ([], [])
  | c :: t =>
      if p c then ([], s)
      else let (a, b) := span_until p t in (c :: a, b)
  end.

(** [_splitnetloc(url, 2)]: the network location runs from position 2 to the
    first of [/], [?] and [#]. *)
Definition splitnetloc (url : pystr) : pystr * pystr :=
  span_until is_netloc_delim (skipn 2 url).

Definition starts_with_2slashes (url : pystr) : bool :=
  str_eqb (firstn 2 url) (lit "//").

Definition is_ascii (c : codepoint) : bool := c <? 128.

Section UrlParse.

(** The two checks of [urlsplit] on a network location that rest on the
    [ipaddress] and [unicodedata] modules: the host between [[] and []] is a
    well-formed IP literal, and no character of a non-ASCII location turns
    into a URL delimiter under NFKC normalisation.  [false] makes [urlsplit]
    raise [ValueError]. *)
Variable check_bracketed_netloc : pystr -> bool.
Variable nfkc_netloc_ok : pystr -> bool.

Definition checknetloc (nl : pystr) : bool :=
  is_empty nl || forallb is_ascii nl || nfkc_netloc_ok nl.

Definition ipv6_brackets_ok (nl : pystr) : bool :=
  let l := contains (chr "[") nl in
  let r := contains (chr "]") nl in
  if (l && negb r) || (r && negb l) then false
  else if l && r then check_bracketed_netloc nl
  else true.

(** The scheme of a URL and what follows its colon: the text before the
    first colon when it starts with an ASCII letter and holds scheme
    characters only, in lower case; no scheme otherwise. *)
Definition split_scheme (url : pystr) : pystr * pystr :=
  match split_once (chr ":") url with
  | Some (c :: pre, rest) =>
      if is_ascii_alpha c && forallb scheme_chars (c :: pre)
      then (lower (c :: pre), rest)
      else ([], url)
  | _ => ([], url)
  end.

(** [url, x = url.split(c, 1)] when [c in url]; [x] stays empty otherwise. *)
Definition split_at (c : codepoint) (url : pystr) : pystr * pystr :=
  match split_once c url with
  | Some (a, b) => (a, b)
  | None => (url, [])
  end.

(** [parse.urlsplit(url)]; [None] stands for its [ValueError].  The checks
    on the brackets are written after the split: an empty network location,
    which is all a URL without [//] has, passes them. *)
Definition urlsplit (url0 : pystr) : option SplitResult :=
  let url := remove_unsafe (lstrip_c0 url0) in
  let (sch, url) := split_scheme url in
  let (nl, url) :=
    if starts_with_2slashes url then splitnetloc url else ([], url) in
  let (url, frag) := split_at (chr "#") url in
  let (url, q) := split_at (chr "?") url in
  if ipv6_brackets_ok nl && checknetloc nl
  then Some (mkSplitResult sch nl url q frag)
  else None.

End UrlParse.

(** [parse.urlunsplit((scheme, netloc, url, query, fragment))]. *)
Definition urlunsplit (sch nl url q frag : pystr) : pystr :=
  let url :=
    if negb (is_empty nl)
       || (negb (is_empty sch) && existsb (str_eqb sch) uses_netloc
           && negb (starts_with_2slashes url))
    then
      let url :=
        if negb (is_empty url) && negb (str_eqb (firstn 1 url) (lit "/"))
        then lit "/" ++ url else url in
      lit "//" ++ nl ++ url
    else url in
  let url := if negb (is_empty sch) then sch ++ lit ":" ++ url else url in
  let url := if negb (is_empty q) then url ++ lit "?" ++ q else url in
  let url := if negb (is_empty frag) then url ++ lit "#" ++ frag else url in
  url.

(** [parse.urlunparse((scheme, netloc, url, params, query, fragment))]. *)
Definition urlunparse (sch nl url params q frag : pystr) : pystr :=
  let url := if negb (is_empty params) then url ++ lit ";" ++ params else url in
  urlunsplit sch nl url q frag.

Definition is_hexdig (c : N) : bool :=
  is_digit c || in_range 65 70 c || in_range 97 102 c.

Definition hexval (c : N) : N :=
  if is_digit c then c - 48
  else if in_range 65 70 c then c - 55
  else c - 87.

(** [unquote_to_bytes] on an ASCII text: [%XY] with two hexadecimal digits
    becomes one octet, any other [%] stays. *)
Fixpoint unquote_to_bytes (s : pystr) : pybytes :=
  match s with
  | [] => []
  | c :: t =>
      if c =? chr "%" then
        match t with
        | h1 :: h2 :: rest =>
            if is_hexdig h1 && is_hexdig h2
            then (16 * hexval h1 + hexval h2) :: unquote_to_bytes rest
            else c :: unquote_to_bytes t
        | _ => c :: unquote_to_bytes t
        end
      else c :: unquote_to_bytes t
  end.

(** The loop of [unquote] over the pieces of [_asciire.split(string)]: [run]
    holds, in reverse, the ASCII characters read since the last character
    outside ASCII.  A run is unquoted to bytes and decoded as UTF-8 with
    [errors='replace']; the characters outside ASCII are kept. *)
Fixpoint unquote_runs (run : pystr) (s : pystr) : pystr :=
  match s with
  | [] => utf8_decode_replace (unquote_to_bytes (rev run))
  | c :: t =>
      if is_ascii c then unquote_runs (c :: run) t
      else utf8_decode_replace (unquote_to_bytes (rev run))
           ++ c :: unquote_runs [] t
  end.

(** [parse.unquote(string)], with the default [utf-8] and ['replace']. *)
Definition unquote (s : pystr) : pystr :=
  if negb (contains (chr "%") s) then s else unquote_runs [] s.

(** [parse.parse_qsl(qs)] with its defaults: fields separated by [&], blank
    values dropped, parsing not strict. *)
Definition parse_field (name_value : pystr) : list (pystr * pystr) :=
  if is_empty name_value then []
  else match split_once (chr "=") name_value with
       | None => []
       | Some (n, v) =>
           if negb (is_empty v)
           then [(unquote (replace_char (chr "+") (chr " ") n),
                  unquote (replace_char (chr "+") (chr " ") v))]
           else []
       end.

Definition parse_qsl (qs : pystr) : list (pystr * pystr) :=
  let query_args := if is_empty qs then [] else split_on (chr "&") qs in
  flat_map parse_field query_args.

(** A [dict] from [str] to lists of [str], in insertion order. *)
Definition qs_dict := list (pystr * list pystr).

(** [d[name].append(value)] when [name in d], [d[name] = [value]] otherwise. *)
Fixpoint dict_add (d : qs_dict) (name value : pystr) : qs_dict :=
  match d with
  | [] => [(name, [value])]
  | (k, vs) :: d' =>
      if str_eqb name k then (k, vs ++ [value]) :: d'
      else (k, vs) :: dict_add d' name value
  end.

(** [parse.parse_qs(qs)]. *)
Definition parse_qs (qs : pystr) : qs_dict :=
  fold_left (fun d nv => dict_add d (fst nv) (snd nv)) (parse_qsl qs) [].

(** ** datetime *)

(** A [datetime]: the instant in microseconds since the epoch (UTC), and its
    [tzinfo] (the offset from UTC in microseconds), [None] when it is naive. *)
Record datetime : Type := mkDatetime {
  micros : Z;
  tzinfo : option Z
}.

(** [datetime.now(timezone.utc)] when the clock reads [t]. *)
Definition now_utc (t : Z) : datetime := mkDatetime t (Some 0%Z).

(** [(a - b) / timedelta(milliseconds=1)] for two aware instants: both are
    whole microseconds, and the quotient is kept exact. *)
Definition milliseconds_between (a b : datetime) : Q :=
  Qmake (micros a - micros b) 1000.

(** ** akita_har.models *)

Module har.

(** Modelled from the spec: [akita_har.models] is a dependency whose source
    is not part of the repository.  A [Record] is a name and a value, both
    text; taking a Record apart as [k, v] (line 49) gives its name and its
    value, in this order. *)
Record Record_ : Type := mkRecord {
  name : pystr;
  value : pystr
}.

Definition unpack (r : Record_) : pystr * pystr := (name r, value r).

Module PostData.
Record t : Type := mk {
  mimeType : pystr;
  text : pystr
}.
End PostData.

Module Request.
Record t : Type := mk {
  method : pystr;
  url : pystr;
  httpVersion : pystr;
  cookies : list Record_;
  headers : list Record_;
  queryString : list Record_;
  postData : option PostData.t;
  headersSize : Z;
  bodySize : Z
}.
End Request.

Module ResponseContent.
Record t : Type := mk {
  size : Z;
  mimeType : pystr;
  text : pystr
}.
End ResponseContent.

Module Response.
Record t : Type := mk {
  status : Z;
  statusText : pystr;
  httpVersion : pystr;
  cookies : list Record_;
  headers : list Record_;
  content : ResponseContent.t;
  redirectURL : pystr;
  headersSize : Z;
  bodySize : Z
}.
End Response.

Inductive Cache : Type := mkCache.

Module Timings.
Record t : Type := mk {
  send : Q;
  wait : Q;
  receive : Q
}.
End Timings.

Module Entry.
Record t : Type := mk {
  startedDateTime : datetime;
  time : Q;
  request : Request.t;
  response : Response.t;
  cache : Cache;
  timings : Timings.t
}.
End Entry.

End har.

(** ** requests *)

Module requests.

(** A cookie of a cookie jar, of which the builder reads name and value. *)
Record Cookie : Type := mkCookie {
  cookie_name : pystr;
  cookie_value : pystr
}.

(** A [CaseInsensitiveDict] of headers: its items in insertion order, with
    the names in the case they were set with. *)
Definition Headers := list (pystr * pystr).

(** [headers[key]], found by comparing lower-cased names; [None] stands for
    [KeyError]. *)
Fixpoint getitem (h : Headers) (key : pystr) : option pystr :=
  match h with
  | [] => None
  | (k, v) :: h' =>
      if str_eqb (lower k) (lower key) then Some v else getitem h' key
  end.

(** The body of a prepared request: [requests] leaves [bytes] given as data
    and the encoding of a JSON document as [bytes], and form fields as the
    [str] that [urlencode] makes of them. *)
Inductive Body : Type :=
| BodyBytes (b : pybytes)
| BodyStr (s : pystr).

Module PreparedRequest.
Record t : Type := mk {
  method : pystr;
  url : pystr;
  headers : option Headers;
  body : option Body;
  _cookies : list Cookie
}.
End PreparedRequest.

Module Response.
Record t : Type := mk {
  status_code : Z;
  reason : pystr;
  headers : Headers;
  cookies : list Cookie;
  text : pystr;
  url : pystr
}.
End Response.

(** What [TestClient.request] accepts as [data] and as [params]. *)
Inductive DataType : Type :=
| DataBytes (b : pybytes)
| DataMapping (m : list (pystr * pystr)).

Definition data_truthy (d : DataType) : bool :=
  match d with
  | DataBytes b => negb (is_empty b)
  | DataMapping m => negb (is_empty m)
  end.

(** [x or {}]. *)
Definition or_empty_dict (x : option DataType) : DataType :=
  match x with
  | Some d => if data_truthy d then d else DataMapping []
  | None => DataMapping []
  end.

(** [requests.Request(method=..., url=..., ...)], with the keyword arguments
    that [TestClient.request] passes.  [Any] is the type of the values the
    module hands on without looking at them. *)
Module Request.
Record t (Any : Type) : Type := mk {
  method : pystr;
  url : pystr;
  headers : option Headers;
  files : option Any;
  data : DataType;
  json : option Any;
  params : DataType;
  auth : option Any;
  cookies : option (list Cookie);
  hooks : option Any
}.
Arguments mk {Any}.
Arguments method {Any}.
Arguments url {Any}.
Arguments headers {Any}.
Arguments files {Any}.
Arguments data {Any}.
Arguments json {Any}.
Arguments params {Any}.
Arguments auth {Any}.
Arguments cookies {Any}.
Arguments hooks {Any}.
End Request.

End requests.

Definition to_record (kv : pystr * pystr) : har.Record_ :=
  har.mkRecord (fst kv) (snd kv).

Definition cookie_record (c : requests.Cookie) : har.Record_ :=
  har.mkRecord (requests.cookie_name c) (requests.cookie_value c).

(** [f'{k}: {v}']. *)
Definition header_line (k v : pystr) : pystr := k ++ lit ": " ++ v.

Definition newline : pystr := [10].

(** The keyword arguments of [TestClient.request]. *)
Module Call.
Record t (Any : Type) : Type := mk {
  method : pystr;
  url : pystr;
  params : option requests.DataType;
  data : option requests.DataType;
  headers : option requests.Headers;
  cookies : option (list requests.Cookie);
  files : option Any;
  auth : option Any;
  timeout : option Any;
  allow_redirects : option bool;
  proxies : option Any;
  hooks : option Any;
  stream : option bool;
  verify : option Any;
  cert : option Any;
  json : option Any
}.
Arguments mk {Any}.
Arguments method {Any}.
Arguments url {Any}.
Arguments params {Any}.
Arguments data {Any}.
Arguments headers {Any}.
Arguments cookies {Any}.
Arguments files {Any}.
Arguments auth {Any}.
Arguments hooks {Any}.
Arguments json {Any}.
End Call.

(** [str.upper] on the ASCII letters (an HTTP method is an ASCII token). *)
Definition upper (s : pystr) : pystr :=
  map (fun c => if is_lower_ascii c then c - 32 else c) s.

(** ** akita_har.HarWriter *)

(** Modelled from the spec: the trace sink, [akita_har.HarWriter], is not
    part of the repository.  It is an append-only writer bound to a path,
    with the operations [append(entry)] (here [write_entry]) and [close()];
    appending after [close] fails with [SinkClosed]. *)
Record HarWriter : Type := mkHarWriter {
  path_ : pystr;
  entries : list har.Entry.t;
  closed : bool
}.

(** [HarWriter(path, 'w')]. *)
Definition open_writer (file : pystr) : HarWriter := mkHarWriter file [] false.

(** [write_entry(entry)]; [None] stands for the failure on a closed writer. *)
Definition write_entry (w : HarWriter) (e : har.Entry.t) : option HarWriter :=
  if closed w then None
  else Some (mkHarWriter (path_ w) (entries w ++ [e]) (closed w)).

(** [close()]. *)
Definition close (w : HarWriter) : HarWriter :=
  mkHarWriter (path_ w) (entries w) true.

(** ** TestClient *)

(** The state of a [TestClient] that [request] reads: the base URL kept by
    the parent class, and the HAR writer opened by [__init__]. *)
Record TestClient : Type := mkTestClient {
  base_url : pystr;
  har_writer : HarWriter
}.

(** [s[-n:]]. *)
Definition last_chars (n : nat) (s : pystr) : pystr :=
  skipn (List.length s - n) s.

(** [TestClient.__init__(self, *args, har_file_path=None, **kwargs)].
    [uuid_digits] is [str(uuid.uuid4().int)], [now] is
    [datetime.now().strftime('%y%m%d_%H%M')], and [base] the base URL that
    the parent class sets. *)
Definition init (har_file_path : option pystr) (uuid_digits now base : pystr)
  : TestClient :=
  let tail := last_chars 5 uuid_digits in
  let file :=
    match har_file_path with
    | Some given => given
    | None => lit "akita_trace_" ++ now ++ lit "_" ++ tail ++ lit ".har"
    end in
  mkTestClient base (open_writer file).

(** [TestClient.__exit__]: the writer is closed (the parent's [__exit__]
    does not reach it). *)
Definition exit_ (self : TestClient) : TestClient :=
  mkTestClient (base_url self) (close (har_writer self)).

(** The client with one more entry in its HAR writer. *)
Definition recorded (self : TestClient) (entry : har.Entry.t) : TestClient :=
  mkTestClient (base_url self)
    (mkHarWriter (path_ (har_writer self))
       (entries (har_writer self) ++ [entry])
       (closed (har_writer self))).

Section Capture.

(** The values handed on unread, and the exceptions of [requests]. *)
Variables (Any PrepareExn : Type).

(** The checks of [urlsplit] on the network location (see [urlsplit]). *)
Variables (check_bracketed_netloc nfkc_netloc_ok : pystr -> bool).

(** [request.prepare()] of [requests]. *)
Variable prepare :
  requests.Request.t Any -> result PrepareExn requests.PreparedRequest.t.

Definition exn : Type := build_error PrepareExn.

Definition prepare_request (request : requests.Request.t Any)
  : result exn requests.PreparedRequest.t :=
  match prepare request with
  | Ok p => Ok p
  | Err e => Err (PrepareFailed e)
  end.

(** Line 50: [None if prepared.body is None else
    prepared.body.decode("utf-7")]. *)
Definition decode_body (b : option requests.Body)
  : result exn (option pystr) :=
  match b with
  | None => Ok None
  | Some (requests.BodyBytes b) =>
      text <- of_option BodyNotDecodable (utf7_decode b) ;;
      Ok (Some text)
  | Some (requests.BodyStr _) => Err BodyNotBytes
  end.

(** Line 66: [None if not body else
    har.PostData(mimeType=prepared.headers['Content-Type'], text=body)]. *)
Definition post_data (headers : option requests.Headers)
  (body : option pystr) : result exn (option har.PostData.t) :=
  match body with
  | None => Ok None
  | Some text =>
      if is_empty text then Ok None
      else
        match headers with
        | None => Err NoHeaders
        | Some h =>
            mime <- of_option MissingContentType
                      (requests.getitem h (lit "Content-Type")) ;;
            Ok (Some (har.PostData.mk mime text))
        end
  end.

(** Line 68: [0 if body is None else len(body)]. *)
Definition body_size (body : option pystr) : Z :=
  match body with
  | None => 0%Z
  | Some text => len text
  end.

(** Line 48: the request headers as Records. *)
Definition header_records (headers : option requests.Headers)
  : list har.Record_ :=
  match headers with
  | None => []
  | Some h => map to_record h
  end.

(** Lines 49 and 74: the lines [f'{k}: {v}'] joined with a line feed. *)
Definition joined_lines {A : Type} (unpack : A -> pystr * pystr)
  (items : list A) : pystr :=
  join newline (map (fun x => let (k, v) := unpack x in header_line k v) items).

(** Line 47: one Record per value of every key of [parse_qs]. *)
Definition query_records (d : qs_dict) : list har.Record_ :=
  flat_map (fun k_vs => map (fun v => har.mkRecord (fst k_vs) v) (snd k_vs)) d.

(** [requests_to_har_entry(start, request, response)].  [clock] is what the
    clock reads when line 89 asks for [datetime.now(timezone.utc)]. *)
Definition requests_to_har_entry (clock : Z) (start : datetime)
  (request : requests.Request.t Any) (response : requests.Response.t)
  : result exn har.Entry.t :=
  match tzinfo start with
  | None => Err InvalidTimestamp
  | Some _ =>
    let server_protocol := lit "HTTP/1.1" in
    prepared <- prepare_request request ;;
    url <- of_option InvalidURL
             (urlsplit check_bracketed_netloc nfkc_netloc_ok
                (requests.PreparedRequest.url prepared)) ;;
    let query_string := query_records (parse_qs (query url)) in
    let request_headers :=
      header_records (requests.PreparedRequest.headers prepared) in
    encoded_headers <- of_option HeadersNotEncodable
      (utf8_encode (joined_lines har.unpack request_headers)) ;;
    body <- decode_body (requests.PreparedRequest.body prepared) ;;
    let cookies :=
      map cookie_record (requests.PreparedRequest._cookies prepared) in
    let har_entry_url :=
      urlunparse (scheme url) (netloc url) (path url) [] [] [] in
    postData <- post_data (requests.PreparedRequest.headers prepared) body ;;
    let har_request :=
      har.Request.mk
        (requests.PreparedRequest.method prepared)
        har_entry_url
        server_protocol
        cookies
        request_headers
        query_string
        postData
        (len encoded_headers)
        (body_size body) in
    let response_content := requests.Response.text response in
    let response_content_type :=
      match requests.getitem (requests.Response.headers response)
              (lit "Content-Type") with
      | None => []
      | Some v => v
      end in
    encoded_response_headers <- of_option HeadersNotEncodable
      (utf8_encode
         (joined_lines (fun kv => kv) (requests.Response.headers response))) ;;
    let har_response :=
      har.Response.mk
        (requests.Response.status_code response)
        (requests.Response.reason response)
        server_protocol
        (map cookie_record (requests.Response.cookies response))
        (map to_record (requests.Response.headers response))
        (har.ResponseContent.mk (len response_content) response_content_type
           response_content)
        (requests.Response.url response)
        (len encoded_response_headers)
        (len response_content) in
    let elapsed_time := milliseconds_between (now_utc clock) start in
    Ok (har.Entry.mk start elapsed_time har_request har_response har.mkCache
          (har.Timings.mk 0%Q elapsed_time 0%Q))
  end.
(** *** TestClient.request *)

(** The world outside the client: the application under test behind the
    parent class, and the clock; the exceptions of the parent class. *)
Variables (Env TransportExn : Type).

(** What [datetime.now(timezone.utc)] reads, in microseconds. *)
Variable clock : Env -> Z.

(** [parse.urljoin(base, url)]. *)
Variable urljoin : pystr -> pystr -> pystr.

(** [super().request(method, url, ...)] of the FastAPI test client with the
    given base URL: it returns a response or raises, and leaves the world in
    a new state.  The HAR writer belongs to the subclass and is out of its
    reach. *)
Variable super_request :
  pystr -> Call.t Any -> Env -> result TransportExn requests.Response.t * Env.

(** The [requests.Request] built on lines 131 to 143. *)
Definition build_request (self : TestClient) (a : Call.t Any)
  : requests.Request.t Any :=
  requests.Request.mk
    (upper (Call.method a))
    (urljoin (base_url self) (Call.url a))
    (Call.headers a)
    (Call.files a)
    (requests.or_empty_dict (Call.data a))
    (Call.json a)
    (requests.or_empty_dict (Call.params a))
    (Call.auth a)
    (Call.cookies a)
    (Call.hooks a).

(** [TestClient.request(self, method, url, ...)]: the value returned or the
    exception raised, with the client and the world as the call leaves them. *)
Definition request (self : TestClient) (a : Call.t Any) (env : Env)
  : result (request_error PrepareExn TransportExn) requests.Response.t
    * TestClient * Env :=
  let request := build_request self a in
  let start := now_utc (clock env) in
  let (r, env1) := super_request (base_url self) a env in
  match r with
  | Err e => (Err (TransportFailed e), self, env1)
  | Ok response =>
      match requests_to_har_entry (clock env1) start request response with
      | Err e => (Err (RecordingFailed e), self, env1)
      | Ok entry =>
          match write_entry (har_writer self) entry with
          | None => (Err SinkClosed, self, env1)
          | Some w => (Ok response, mkTestClient (base_url self) w, env1)
          end
      end
  end.

(** Calls of [request] made one after the other on one client, the caller
    going on after a call that raises; the world may change between two
    calls.  [calls_made self outcomes self'] holds when such calls take the
    client from [self] to [self'] with these outcomes, in call order. *)
Inductive calls_made : TestClient ->
  list (result (request_error PrepareExn TransportExn) requests.Response.t) ->
  TestClient -> Prop :=
| no_call (self : TestClient) : calls_made self [] self
| one_more_call (self self1 self2 : TestClient) (a : Call.t Any)
    (env env1 : Env)
    (r : result (request_error PrepareExn TransportExn) requests.Response.t)
    (rs : list (result (request_error PrepareExn TransportExn)
                  requests.Response.t)) :
    request self a env = (r, self1, env1) ->
    calls_made self1 rs self2 ->
    calls_made self (r :: rs) self2.

End Capture.

Arguments decode_body {PrepareExn} b.
Arguments post_data {PrepareExn} headers body.
Arguments requests_to_har_entry {Any PrepareExn}
  check_bracketed_netloc nfkc_netloc_ok prepare clock start request response.
Arguments build_request {Any} urljoin self a.
Arguments request {Any PrepareExn}
  check_bracketed_netloc nfkc_netloc_ok prepare {Env TransportExn} clock
  urljoin super_request self a env.
Arguments calls_made {Any PrepareExn}
  check_bracketed_netloc nfkc_netloc_ok prepare {Env TransportExn} clock
  urljoin super_request _ _ _.

(** ** Stand-ins on which the statements are exercised *)

(** The checks of [urlsplit] on a network location without brackets and
    within ASCII always pass. *)
Definition netloc_passes (_ : pystr) : bool := true.

(** A stand-in for [request.prepare()]: the method in upper case, the URL,
    the headers and the cookies as given, [bytes] data as the body and form
    fields as a [str] body, as [requests] leaves them.  (It does not add the
    Content-Length header that [requests] computes.) *)
Definition simple_prepare (r : requests.Request.t unit)
  : result unit requests.PreparedRequest.t :=
  Ok (requests.PreparedRequest.mk
        (upper (requests.Request.method r))
        (requests.Request.url r)
        (Some (match requests.Request.headers r with
               | Some h => h
               | None => []
               end))
        (match requests.Request.data r with
         | requests.DataBytes b => Some (requests.BodyBytes b)
         | requests.DataMapping [] => None
         | requests.DataMapping m =>
             Some (requests.BodyStr
                     (join (lit "&")
                        (map (fun kv => fst kv ++ lit "=" ++ snd kv) m)))
         end)
        (match requests.Request.cookies r with
         | Some c => c
         | None => []
         end)).

(** A stand-in for [parse.urljoin] on an origin and an absolute path. *)
Definition simple_urljoin (base url : pystr) : pystr := base ++ url.

(** The text [{"ok":true}]. *)
Definition ok_true : pystr :=
  lit "{" ++ [dquote] ++ lit "ok" ++ [dquote] ++ lit ":true}".

(** The response of a server that answers 200 with a JSON document. *)
Definition json_response : requests.Response.t :=
  requests.Response.mk 200 (lit "OK")
    [(lit "Content-Type", lit "application/json")] [] ok_true
    (lit "http://testserver/items?x=1").

(** A world that is a clock, and an application that takes 1500 microseconds
    to answer every call with [json_response]. *)
Definition json_server (_ : pystr) (_ : Call.t unit) (env : Z)
  : result unit requests.Response.t * Z :=
  (Ok json_response, (env + 1500)%Z).

Definition call {Any : Type} (method url : string)
  (data : option requests.DataType) (headers : option requests.Headers)
  : Call.t Any :=
  Call.mk (lit method) (lit url) None data headers None None None None None
    None None None None None None.

Definition get_items : Call.t unit := call "GET" "/items?x=1" None None.

(** POST of three octets with no headers. *)
Definition post_abc : Call.t unit :=
  call "POST" "/notes" (Some (requests.DataBytes (lit "abc"))) None.

(** An application during whose call the system clock is set back by five
    seconds. *)
Definition clock_reset_server (_ : pystr) (_ : Call.t unit) (env : Z)
  : result unit requests.Response.t * Z :=
  (Ok json_response, (env - 5000000)%Z).

(** A client as [TestClient(app, har_file_path='trace.har')] makes it. *)
Definition testserver : TestClient :=
  init (Some (lit "trace.har")) (lit "236220808863862617160699797595931354831")
    (lit "231104_1530") (lit "http://testserver").

(** [TestClient.request] over the stand-ins. *)
Definition simple_request (self : TestClient) (a : Call.t unit) (env : Z)
  : result (request_error unit unit) requests.Response.t * TestClient * Z :=
  request netloc_passes netloc_passes simple_prepare (fun t => t)
    simple_urljoin json_server self a env.

(** [TestClient.request] in the world whose clock is set back. *)
Definition clock_reset_request (self : TestClient) (a : Call.t unit) (env : Z)
  : result (request_error unit unit) requests.Response.t * TestClient * Z :=
  request netloc_passes netloc_passes simple_prepare (fun t => t)
    simple_urljoin clock_reset_server self a env.

(** The builder over the stand-ins. *)
Definition simple_entry (clock : Z) (start : datetime)
  (r : requests.Request.t unit) (response : requests.Response.t)
  : result (build_error unit) har.Entry.t :=
  requests_to_har_entry netloc_passes netloc_passes simple_prepare clock
    start r response.

(** A request as [TestClient.request] builds it, given by method, URL,
    headers and data. *)
Definition simple_req (method url : string) (headers : requests.Headers)
  (data : requests.DataType) : requests.Request.t unit :=
  requests.Request.mk (lit method) (lit url) (Some headers) None data None
    (requests.DataMapping []) None None None.

Definition text_plain : requests.Headers :=
  [(lit "Content-Type", lit "text/plain")].

(** A request with the query string [a=1&a=2&b=3] and a fragment. *)
Definition search_request : requests.Request.t unit :=
  simple_req "GET" "http://testserver/search?a=1&a=2&b=3#top" []
    (requests.DataMapping []).

(** A request with a blank value in its query string. *)
Definition blank_request : requests.Request.t unit :=
  simple_req "GET" "http://testserver/search?a=&b=1" []
    (requests.DataMapping []).

(** A request with two headers, one of them outside ASCII (U+00E9), and a
    body of five ASCII octets. *)
Definition note_request : requests.Request.t unit :=
  simple_req "POST" "http://testserver/notes"
    [(lit "Content-Type", lit "text/plain"); (lit "X-Title", lit "caf" ++ [233])]
    (requests.DataBytes (lit "hello")).


(** A request whose body is a lone plus sign. *)
Definition lone_plus_request : requests.Request.t unit :=
  simple_req "POST" "http://testserver/notes" text_plain
    (requests.DataBytes (lit "+")).

(** A request with one form field. *)
Definition form_request : requests.Request.t unit :=
  simple_req "POST" "http://testserver/login" []
    (requests.DataMapping [(lit "user", lit "x")]).

(** A request whose body is the UTF-8 encoding of a text with U+00E9. *)
Definition accent_request : requests.Request.t unit :=
  simple_req "POST" "http://testserver/notes" text_plain
    (requests.DataBytes (lit "caf" ++ [0xC3; 0xA9])).

(** A request with a body of three octets and no Content-Type header. *)
Definition bare_request : requests.Request.t unit :=
  simple_req "POST" "http://testserver/notes" [(lit "Accept", lit "*/*")]
    (requests.DataBytes (lit "abc")).

(** A naive instant and an aware one. *)
Definition naive_start : datetime := mkDatetime 1000000 None.
Definition aware_start : datetime := now_utc 1000000.

(** ** The quantities the specification names *)

(** The number of octets of a character in UTF-8, by its range. *)
Definition utf8_width (c : codepoint) : Z :=
  if c <? 0x80 then 1%Z
  else if c <? 0x800 then 2%Z
  else if c <? 0x10000 then 3%Z
  else 4%Z.

(** The UTF-8 byte length of a text. *)
Definition utf8_byte_length (s : pystr) : Z :=
  fold_right (fun c n => (utf8_width c + n)%Z) 0%Z s.

(** The header block of the specification: one ["key: value"] line per
    header, in the order of the headers, joined with line breaks. *)
Definition header_block (h : requests.Headers) : pystr :=
  join newline (map (fun kv => fst kv ++ lit ": " ++ snd kv) h).

(** The headers of a prepared request, none when the collection is absent. *)
Definition headers_of (p : requests.PreparedRequest.t) : requests.Headers :=
  match requests.PreparedRequest.headers p with
  | Some h => h
  | None => []
  end.

(** A character other than [?] and [#]. *)
Definition plain_char (c : codepoint) : bool :=
  negb ((c =? chr "?") || (c =? chr "#")).

(** Every value kept in the dictionary is non-empty. *)
Definition values_nonempty (d : qs_dict) : Prop :=
  forall k vs v, In (k, vs) d -> In v vs -> v <> [].




(** The pairs a dictionary of [parse_qs] stands for, key by key. *)
Definition pairs_of (d : qs_dict) : list (pystr * pystr) :=
  flat_map (fun k_vs => map (fun v => (fst k_vs, v)) (snd k_vs)) d.

(** The values that a list of pairs gives to one name, in their order. *)
Definition values_for (name : pystr) (pairs : list (pystr * pystr))
  : list pystr :=
  map snd (filter (fun nv => str_eqb name (fst nv)) pairs).

(** The network location of a URL without its scheme, and what follows it:
    the step of [urlsplit] on a URL that begins with two slashes, or not. *)
Definition split_netloc_step (url : pystr) : pystr * pystr :=
  if starts_with_2slashes url then splitnetloc url else ([], url).

(** Line 57: the URL recorded for a split URL. *)
Definition har_url (r : SplitResult) : pystr :=
  urlunparse (scheme r) (netloc r) (path r) [] [] [].

(** The responses of the calls that returned, in call order. *)
Fixpoint returned {E : Type} (outcomes : list (result E requests.Response.t))
  : list requests.Response.t :=
  match outcomes with
  | [] => []
  | Ok r :: rest => r :: returned rest
  | Err _ :: rest => returned rest
  end.

(** The file that a client made without [har_file_path] writes to. *)
Definition trace_file (uuid_digits now : pystr) : pystr :=
  path_ (har_writer (init None uuid_digits now [])).

(** * Properties *)

(** ** Strings *)

Lemma str_eqb_eq (a b : pystr) : str_eqb a b = true <-> a = b.
Proof.
  revert b; induction a as [|x a IH]; intros [|y b]; simpl; split;
    try discriminate; try reflexivity.
  - intros H. apply andb_true_iff in H as [Hx Hab].
    apply N.eqb_eq in Hx. apply IH in Hab. now subst.
  - intros H. injection H as -> ->. rewrite N.eqb_refl. simpl. now apply IH.
Qed.

Lemma contains_app (c : codepoint) (a b : pystr) :
  contains c (a ++ b) = contains c a || contains c b.
Proof. unfold contains. apply existsb_app. Qed.

Lemma plain_no_delimiter (s : pystr) :
  forallb plain_char s = true ->
  contains (chr "?") s = false /\ contains (chr "#") s = false.
Proof.
  unfold contains.
  induction s as [|c s IH]; [now split|].
  intros H. apply andb_true_iff in H as [Hc Hs].
  destruct (IH Hs) as [Hq Hf].
  unfold plain_char in Hc. apply negb_true_iff, orb_false_iff in Hc as [H1 H2].
  cbn [existsb]. rewrite Hq, Hf, (N.eqb_sym _ c), H1, (N.eqb_sym _ c), H2.
  now split.
Qed.

Lemma split_once_some (c : codepoint) (s a b : pystr) :
  split_once c s = Some (a, b) ->
  s = a ++ c :: b /\ forallb (fun x => negb (x =? c)) a = true.
Proof.
  revert a b; induction s as [|x s IH]; simpl; intros a b H; [discriminate|].
  destruct (x =? c) eqn:Hx.
  - injection H as <- <-. apply N.eqb_eq in Hx. subst. now split.
  - destruct (split_once c s) as [[a' b']|]; [|discriminate].
    injection H as <- <-. destruct (IH a' b' eq_refl) as [-> Ha].
    simpl. rewrite Hx, Ha. now split.
Qed.

Lemma split_once_none (c : codepoint) (s : pystr) :
  split_once c s = None -> forallb (fun x => negb (x =? c)) s = true.
Proof.
  induction s as [|x s IH]; simpl; [reflexivity|].
  destruct (x =? c); [discriminate|].
  destruct (split_once c s) as [[a b]|]; [discriminate|].
  intros _. now rewrite IH.
Qed.

Lemma span_until_spec (p : codepoint -> bool) (s a b : pystr) :
  span_until p s = (a, b) ->
  s = a ++ b /\ forallb (fun x => negb (p x)) a = true.
Proof.
  revert a b; induction s as [|x s IH]; simpl; intros a b H.
  - injection H as <- <-. now split.
  - destruct (p x) eqn:Hp.
    + injection H as <- <-. now split.
    + destruct (span_until p s) as [a' b']. injection H as <- <-.
      destruct (IH a' b' eq_refl) as [-> Ha]. simpl. rewrite Hp, Ha. now split.
Qed.

Lemma forallb_weaken {A : Type} (p q : A -> bool) (l : list A) :
  (forall x, p x = true -> q x = true) ->
  forallb p l = true -> forallb q l = true.
Proof.
  intros Hpq. induction l as [|x l IH]; simpl; [reflexivity|].
  intros H. apply andb_true_iff in H as [Hx Hl].
  now rewrite (Hpq x Hx), IH.
Qed.

Lemma forallb_map_pre {A B : Type} (f : A -> B) (p : B -> bool) (l : list A) :
  forallb p (map f l) = forallb (fun x => p (f x)) l.
Proof. induction l as [|x l IH]; simpl; [reflexivity|now rewrite IH]. Qed.

Lemma forallb_app_l {A : Type} (p : A -> bool) (a b : list A) :
  forallb p (a ++ b) = true -> forallb p a = true.
Proof. rewrite forallb_app. intros H. now apply andb_true_iff in H. Qed.

Lemma forallb_filter {A : Type} (p q : A -> bool) (l : list A) :
  forallb p l = true -> forallb p (filter q l) = true.
Proof.
  induction l as [|x l IH]; simpl; [reflexivity|].
  intros H. apply andb_true_iff in H as [Hx Hl].
  destruct (q x); simpl; [rewrite Hx|]; now apply IH.
Qed.

(** ** The recorded URL has neither query nor fragment *)

Lemma forallb_plain_app (a b : pystr) :
  forallb plain_char a = true -> forallb plain_char b = true ->
  forallb plain_char (a ++ b) = true.
Proof. intros Ha Hb. now rewrite forallb_app, Ha, Hb. Qed.

Lemma scheme_char_lower_plain (c : codepoint) :
  scheme_chars c = true -> plain_char (lower_char c) = true.
Proof.
  unfold scheme_chars, plain_char, lower_char, is_lower_ascii, is_upper_ascii,
    is_digit.
  change (chr "+") with 43; change (chr "-") with 45;
    change (chr ".") with 46; change (chr "?") with 63;
    change (chr "#") with 35.
  intros H. apply negb_true_iff, orb_false_iff.
  destruct ((65 <=? c) && (c <=? 90)) eqn:Hu.
  - apply andb_true_iff in Hu as [H1 H2].
    apply N.leb_le in H1. apply N.leb_le in H2.
    split; apply N.eqb_neq; lia.
  - repeat (apply orb_true_iff in H as [H|H]);
      try (apply andb_true_iff in H as [H1 H2];
           apply N.leb_le in H1; apply N.leb_le in H2);
      try discriminate;
      try apply N.eqb_eq in H;
      split; apply N.eqb_neq; lia.
Qed.

Lemma split_scheme_plain (url sch rest : pystr) :
  split_scheme url = (sch, rest) -> forallb plain_char sch = true.
Proof.
  unfold split_scheme.
  destruct (split_once (chr ":") url) as [[[|c pre] r]|];
    try (intros H; injection H as <- <-; reflexivity).
  destruct (is_ascii_alpha c && forallb scheme_chars (c :: pre)) eqn:Hc;
    intros H; injection H as <- <-; [|reflexivity].
  apply andb_true_iff in Hc as [_ Hc].
  change (forallb plain_char (map lower_char (c :: pre)) = true).
  rewrite forallb_map_pre.
  revert Hc. apply forallb_weaken. intros x. apply scheme_char_lower_plain.
Qed.

Lemma netloc_delim_plain (c : codepoint) :
  negb (is_netloc_delim c) = true -> plain_char c = true.
Proof.
  unfold is_netloc_delim, plain_char.
  destruct (c =? chr "/"), (c =? chr "?"), (c =? chr "#"); simpl;
    congruence.
Qed.

Lemma splitnetloc_plain (url nl rest : pystr) :
  splitnetloc url = (nl, rest) -> forallb plain_char nl = true.
Proof.
  unfold splitnetloc. intros H. apply span_until_spec in H as [_ H].
  revert H. apply forallb_weaken. intros x. apply netloc_delim_plain.
Qed.

(** What is left before [#], and then before [?], holds neither. *)
Lemma split_path_plain (url a frag p q : pystr) :
  split_at (chr "#") url = (a, frag) ->
  split_at (chr "?") a = (p, q) ->
  forallb plain_char p = true.
Proof.
  unfold split_at. intros Hf Hq.
  assert (Ha : forallb (fun x => negb (x =? chr "#")) a = true).
  { destruct (split_once (chr "#") url) as [[a' b']|] eqn:E.
    - injection Hf as <- <-. now apply split_once_some in E as [_ E].
    - injection Hf as <- <-. now apply split_once_none in E. }
  assert (Hp : forallb (fun x => negb (x =? chr "?")) p = true
               /\ forallb (fun x => negb (x =? chr "#")) p = true).
  { destruct (split_once (chr "?") a) as [[a' b']|] eqn:E.
    - injection Hq as <- <-. apply split_once_some in E as [-> E].
      split; [exact E|]. now apply forallb_app_l in Ha.
    - injection Hq as <- <-. apply split_once_none in E. now split. }
  destruct Hp as [Hp1 Hp2]. clear - Hp1 Hp2.
  induction p as [|c p IH]; simpl in *; [reflexivity|].
  apply andb_true_iff in Hp1 as [H1 Hp1].
  apply andb_true_iff in Hp2 as [H2 Hp2].
  rewrite (IH Hp1 Hp2), andb_true_r. unfold plain_char.
  apply negb_true_iff in H1. apply negb_true_iff in H2. now rewrite H1, H2.
Qed.

Lemma urlsplit_plain (chk nf : pystr -> bool) (u : pystr) (r : SplitResult) :
  urlsplit chk nf u = Some r ->
  forallb plain_char (scheme r) = true
  /\ forallb plain_char (netloc r) = true
  /\ forallb plain_char (path r) = true.
Proof.
  unfold urlsplit.
  destruct (split_scheme (remove_unsafe (lstrip_c0 u))) as [sch url1] eqn:Hs.
  destruct (if starts_with_2slashes url1 then splitnetloc url1 else ([], url1))
    as [nl url2] eqn:Hn.
  destruct (split_at (chr "#") url2) as [url3 frag] eqn:Hf.
  destruct (split_at (chr "?") url3) as [url4 q] eqn:Hq.
  destruct (ipv6_brackets_ok chk nl && checknetloc nf nl); [|discriminate].
  intros H. injection H as <-. simpl.
  split; [now apply split_scheme_plain in Hs|].
  split; [|now apply (split_path_plain url2 url3 frag url4 q)].
  destruct (starts_with_2slashes url1).
  - now apply splitnetloc_plain in Hn.
  - now injection Hn as <- <-.
Qed.

Lemma urlunparse_plain (sch nl p : pystr) :
  forallb plain_char sch = true ->
  forallb plain_char nl = true ->
  forallb plain_char p = true ->
  forallb plain_char (urlunparse sch nl p [] [] []) = true.
Proof.
  intros Hs Hn Hp. unfold urlunparse, urlunsplit. simpl is_empty at 1.
  cbv iota. simpl (negb (is_empty [])). cbv iota.
  assert (Hin : forallb plain_char
            (if negb (is_empty p) && negb (str_eqb (firstn 1 p) (lit "/"))
             then lit "/" ++ p else p) = true).
  { destruct (negb (is_empty p) && negb (str_eqb (firstn 1 p) (lit "/")));
      [apply forallb_plain_app; [reflexivity|]|]; exact Hp. }
  assert (Hmid : forallb plain_char
            (if negb (is_empty nl)
                || negb (is_empty sch) && existsb (str_eqb sch) uses_netloc
                   && negb (starts_with_2slashes p)
             then lit "//" ++ nl ++
                  (if negb (is_empty p) && negb (str_eqb (firstn 1 p) (lit "/"))
                   then lit "/" ++ p else p)
             else p) = true).
  { destruct (negb (is_empty nl)
              || negb (is_empty sch) && existsb (str_eqb sch) uses_netloc
                 && negb (starts_with_2slashes p)); [|exact Hp].
    apply forallb_plain_app; [reflexivity|].
    now apply forallb_plain_app. }
  destruct (negb (is_empty sch)); [|exact Hmid].
  apply forallb_plain_app; [exact Hs|].
  apply forallb_plain_app; [reflexivity|exact Hmid].
Qed.

(** ** Codecs *)

Lemma utf8_encode_char_length (c : codepoint) (bs : pybytes) :
  utf8_encode_char c = Some bs -> len bs = utf8_width c.
Proof.
  unfold utf8_encode_char, utf8_width.
  destruct (c <? 0x80); [intros H; injection H as <-; reflexivity|].
  destruct (c <? 0x800); [intros H; injection H as <-; reflexivity|].
  destruct (c <? 0x10000).
  - destruct (is_surrogate c); [discriminate|].
    intros H; injection H as <-; reflexivity.
  - destruct (c <? 0x110000); [|discriminate].
    intros H; injection H as <-; reflexivity.
Qed.

Lemma len_app {A : Type} (a b : list A) : len (a ++ b) = (len a + len b)%Z.
Proof. unfold len. rewrite length_app. lia. Qed.

(** The encoder writes as many octets as the widths of the characters add
    up to. *)
Lemma utf8_encode_length (s : pystr) (bs : pybytes) :
  utf8_encode s = Some bs -> len bs = utf8_byte_length s.
Proof.
  revert bs; induction s as [|c s IH]; simpl; intros bs H.
  - injection H as <-. reflexivity.
  - destruct (utf8_encode_char c) as [b|] eqn:Hc; [|discriminate].
    destruct (utf8_encode s) as [rest|]; [|discriminate].
    injection H as <-. rewrite len_app, (IH rest eq_refl).
    now rewrite (utf8_encode_char_length c b Hc).
Qed.



Lemma utf8_decode_replace_nonempty (b0 : N) (bs : pybytes) :
  utf8_decode_replace (b0 :: bs) <> [].
Proof.
  simpl.
  repeat match goal with
         | |- context [if ?c then _ else _] => destruct c
         | |- context [match ?l with [] => _ | _ :: _ => _ end] => destruct l
         end; discriminate.
Qed.

Lemma unquote_to_bytes_nonempty (c : codepoint) (s : pystr) :
  unquote_to_bytes (c :: s) <> [].
Proof.
  simpl.
  repeat match goal with
         | |- context [if ?c then _ else _] => destruct c
         | |- context [match ?l with [] => _ | _ :: _ => _ end] => destruct l
         end; discriminate.
Qed.

Lemma unquoted_run_nonempty (run : pystr) :
  run <> [] -> utf8_decode_replace (unquote_to_bytes (rev run)) <> [].
Proof.
  intros Hrun.
  destruct (rev run) as [|c r] eqn:Hr.
  - apply (f_equal (@rev _)) in Hr. rewrite rev_involutive in Hr.
    now subst.
  - pose proof (unquote_to_bytes_nonempty c r) as Hb.
    destruct (unquote_to_bytes (c :: r)) as [|b0 bs]; [contradiction|].
    apply utf8_decode_replace_nonempty.
Qed.

Lemma unquote_runs_nonempty (s run : pystr) :
  run <> [] \/ s <> [] -> unquote_runs run s <> [].
Proof.
  revert run; induction s as [|c s IH]; intros run H; simpl.
  - destruct H as [H|H]; [now apply unquoted_run_nonempty|contradiction].
  - destruct (is_ascii c).
    + apply IH. left. discriminate.
    + intros E. apply app_eq_nil in E as [_ E]. discriminate.
Qed.

(** Unquoting never empties a text. *)
Lemma unquote_nonempty (s : pystr) : s <> [] -> unquote s <> [].
Proof.
  intros H. unfold unquote.
  destruct (negb (contains (chr "%") s)); [exact H|].
  apply unquote_runs_nonempty. now right.
Qed.

Lemma replace_char_nonempty (a b : codepoint) (s : pystr) :
  s <> [] -> replace_char a b s <> [].
Proof. destruct s; [contradiction|discriminate]. Qed.

(** ** Query strings *)

Lemma split_once_last (c : codepoint) (n : pystr) :
  contains c n = false -> split_once c (n ++ [c]) = Some (n, []).
Proof.
  unfold contains. induction n as [|x n IH]; cbn [existsb app split_once].
  - now rewrite N.eqb_refl.
  - intros H. apply orb_false_iff in H as [Hx Hn].
    rewrite N.eqb_sym in Hx. now rewrite Hx, (IH Hn).
Qed.

(** A field whose value is blank, [name=], gives no pair. *)
Lemma parse_field_blank (n : pystr) :
  contains (chr "=") n = false -> parse_field (n ++ [chr "="]) = [].
Proof.
  intros Hn. unfold parse_field.
  rewrite (split_once_last (chr "=") n Hn).
  now destruct n.
Qed.

Lemma parse_field_value (f n v : pystr) :
  In (n, v) (parse_field f) -> v <> [].
Proof.
  unfold parse_field.
  destruct (is_empty f); [contradiction|].
  destruct (split_once (chr "=") f) as [[n0 v0]|]; [|contradiction].
  destruct v0 as [|c v0]; simpl; [contradiction|].
  intros [H|[]]. injection H as <- <-.
  apply unquote_nonempty. discriminate.
Qed.

Lemma parse_qsl_value (qs n v : pystr) :
  In (n, v) (parse_qsl qs) -> v <> [].
Proof.
  unfold parse_qsl. intros H. apply in_flat_map in H as [f [_ H]].
  now apply parse_field_value in H.
Qed.

Lemma dict_add_values (d : qs_dict) (n v : pystr) :
  values_nonempty d -> v <> [] -> values_nonempty (dict_add d n v).
Proof.
  induction d as [|[k vs] d IH]; intros Hd Hv; simpl.
  - intros k' vs' v' [H|[]] Hin. injection H as <- <-.
    destruct Hin as [<-|[]]. exact Hv.
  - destruct (str_eqb n k).
    + intros k' vs' v' [H|H] Hin.
      * injection H as <- <-. apply in_app_or in Hin as [Hin|[<-|[]]].
        -- apply (Hd k vs v'); [now left|exact Hin].
        -- exact Hv.
      * apply (Hd k' vs' v'); [now right|exact Hin].
    + intros k' vs' v' [H|H] Hin.
      * injection H as <- <-. apply (Hd k vs v'); [now left|exact Hin].
      * apply (IH (fun a b c Ha Hb => Hd a b c (or_intror Ha) Hb) Hv k' vs' v');
          assumption.
Qed.

Lemma fold_dict_add_values (pairs : list (pystr * pystr)) (d : qs_dict) :
  values_nonempty d ->
  (forall n v, In (n, v) pairs -> v <> []) ->
  values_nonempty
    (fold_left (fun d nv => dict_add d (fst nv) (snd nv)) pairs d).
Proof.
  revert d; induction pairs as [|[n v] pairs IH]; intros d Hd Hp; simpl.
  - exact Hd.
  - apply IH.
    + apply dict_add_values; [exact Hd|]. apply (Hp n v). now left.
    + intros n' v' H. apply (Hp n' v'). now right.
Qed.

Lemma parse_qs_values (qs : pystr) : values_nonempty (parse_qs qs).
Proof.
  unfold parse_qs. apply fold_dict_add_values.
  - intros k vs v [].
  - intros n v. apply parse_qsl_value.
Qed.

(** ** The entry builder *)

Section BuilderProperties.

Context {Any PrepareExn : Type}.
Variables (chk nf : pystr -> bool).
Variable prepare :
  requests.Request.t Any -> result PrepareExn requests.PreparedRequest.t.

(** What a successful call of the builder went through, and the entry it
    returns, field by field. *)
Lemma requests_to_har_entry_ok (clock : Z) (start : datetime)
  (req : requests.Request.t Any) (resp : requests.Response.t)
  (e : har.Entry.t) :
  requests_to_har_entry chk nf prepare clock start req resp = Ok e ->
  exists p u enc body pd enc',
    tzinfo start <> None
    /\ prepare req = Ok p
    /\ urlsplit chk nf (requests.PreparedRequest.url p) = Some u
    /\ utf8_encode
         (joined_lines har.unpack
            (header_records (requests.PreparedRequest.headers p))) = Some enc
    /\ decode_body (PrepareExn := PrepareExn)
         (requests.PreparedRequest.body p) = Ok body
    /\ post_data (PrepareExn := PrepareExn)
         (requests.PreparedRequest.headers p) body = Ok pd
    /\ utf8_encode
         (joined_lines (fun kv => kv) (requests.Response.headers resp))
       = Some enc'
    /\ har.Entry.startedDateTime e = start
    /\ har.Entry.request e =
       har.Request.mk
         (requests.PreparedRequest.method p)
         (urlunparse (scheme u) (netloc u) (path u) [] [] [])
         (lit "HTTP/1.1")
         (map cookie_record (requests.PreparedRequest._cookies p))
         (header_records (requests.PreparedRequest.headers p))
         (query_records (parse_qs (query u)))
         pd
         (len enc)
         (body_size body)
    /\ har.Response.status (har.Entry.response e)
       = requests.Response.status_code resp
    /\ har.Response.content (har.Entry.response e)
       = har.ResponseContent.mk (len (requests.Response.text resp))
           (match requests.getitem (requests.Response.headers resp)
                    (lit "Content-Type") with
            | None => []
            | Some v => v
            end)
           (requests.Response.text resp)
    /\ har.Response.headersSize (har.Entry.response e) = len enc'
    /\ har.Response.bodySize (har.Entry.response e)
       = len (requests.Response.text resp).
Proof.
  unfold requests_to_har_entry, prepare_request.
  destruct (tzinfo start) as [tz|] eqn:Htz; [|discriminate].
  destruct (prepare req) as [p|ex] eqn:Hp; [|discriminate].
  cbn [bind].
  destruct (urlsplit chk nf (requests.PreparedRequest.url p)) as [u|] eqn:Hu;
    [|discriminate].
  cbn [of_option bind].
  destruct (utf8_encode
              (joined_lines har.unpack
                 (header_records (requests.PreparedRequest.headers p))))
    as [enc|] eqn:He; [|discriminate].
  cbn [of_option bind].
  destruct (decode_body (requests.PreparedRequest.body p)) as [body|ex]
    eqn:Hb; [|discriminate].
  cbn [bind].
  destruct (post_data (requests.PreparedRequest.headers p) body) as [pd|ex]
    eqn:Hpd; [|discriminate].
  cbn [bind].
  destruct (utf8_encode
              (joined_lines (fun kv => kv) (requests.Response.headers resp)))
    as [enc'|] eqn:He'; [|discriminate].
  cbn [of_option bind].
  intros H. injection H as <-.
  exists p, u, enc, body, pd, enc'. cbn.
  repeat split; try assumption; try reflexivity. discriminate.
Qed.

Lemma joined_records_block (h : option requests.Headers) :
  joined_lines har.unpack (header_records h)
  = header_block (match h with Some l => l | None => [] end).
Proof.
  unfold joined_lines, header_records, header_block.
  destruct h as [l|]; [|reflexivity].
  rewrite map_map. reflexivity.
Qed.

(** C1: for every request whose URL has the query string [a=1&a=2&b=3], the
    entry returned by the builder has [request.queryString] equal to the three
    Records (a,1), (a,2), (b,3), and [request.url] holds neither [?] nor [#]:
    query and fragment are cleared from the recorded URL. *)
Theorem C1_query_string_and_url (clock : Z) (start : datetime)
  (req : requests.Request.t Any) (resp : requests.Response.t)
  (e : har.Entry.t) (p : requests.PreparedRequest.t) (u : SplitResult) :
  requests_to_har_entry chk nf prepare clock start req resp = Ok e ->
  prepare req = Ok p ->
  urlsplit chk nf (requests.PreparedRequest.url p) = Some u ->
  query u = lit "a=1&a=2&b=3" ->
  har.Request.queryString (har.Entry.request e)
  = [har.mkRecord (lit "a") (lit "1"); har.mkRecord (lit "a") (lit "2");
     har.mkRecord (lit "b") (lit "3")]
  /\ contains (chr "?") (har.Request.url (har.Entry.request e)) = false
  /\ contains (chr "#") (har.Request.url (har.Entry.request e)) = false.
Proof.
  intros He Hp Hu Hq.
  apply requests_to_har_entry_ok in He
    as (p' & u' & enc & body & pd & enc' & _ & Hp' & Hu' & _ & _ & _ & _ & _
        & Hreq & _).
  rewrite Hp in Hp'. injection Hp' as <-.
  rewrite Hu in Hu'. injection Hu' as <-.
  rewrite Hreq. cbn [har.Request.queryString har.Request.url].
  split; [rewrite Hq; reflexivity|].
  apply plain_no_delimiter.
  apply urlsplit_plain in Hu as (Hs & Hn & Hpa).
  now apply urlunparse_plain.
Qed.



(** C4: a call of the builder with a naive start instant fails with
    [InvalidTimestamp], whatever the request and the response are (nothing of
    them is looked at) and builds no entry; with a timezone-aware start
    instant this error is never raised. *)
Theorem C4_naive_start_rejected (clock : Z) (start : datetime)
  (req : requests.Request.t Any) (resp : requests.Response.t) :
  requests_to_har_entry chk nf prepare clock start req resp = Err InvalidTimestamp
  <-> tzinfo start = None.
Proof.
  unfold requests_to_har_entry, prepare_request, decode_body, post_data.
  split.
  - destruct (tzinfo start) as [tz|]; [|reflexivity].
    destruct (prepare req) as [p|ex]; [|discriminate].
    cbn [bind].
    destruct (urlsplit chk nf (requests.PreparedRequest.url p));
      [|discriminate].
    cbn [of_option bind].
    destruct (utf8_encode _); [|discriminate].
    cbn [of_option bind].
    destruct (requests.PreparedRequest.body p) as [[b|txt]|];
      [destruct (utf7_decode b) as [[|c t]|]| |]; cbn [of_option bind is_empty];
      try discriminate;
      try (destruct (requests.PreparedRequest.headers p) as [h|];
           [destruct (requests.getitem h (lit "Content-Type"))|];
           cbn [of_option bind]; try discriminate);
      destruct (utf8_encode _); discriminate.
  - intros ->. reflexivity.
Qed.

(** C9: for every built entry, [response.bodySize] equals
    [response.content.size], and both are the length of the decoded response
    text. *)
Theorem C9_response_sizes (clock : Z) (start : datetime)
  (req : requests.Request.t Any) (resp : requests.Response.t)
  (e : har.Entry.t) :
  requests_to_har_entry chk nf prepare clock start req resp = Ok e ->
  har.Response.bodySize (har.Entry.response e)
  = har.ResponseContent.size (har.Response.content (har.Entry.response e))
  /\ har.ResponseContent.size (har.Response.content (har.Entry.response e))
     = len (requests.Response.text resp).
Proof.
  intros He.
  apply requests_to_har_entry_ok in He
    as (p & u & enc & body & pd & enc' & _ & _ & _ & _ & _ & _ & _ & _ & _
        & _ & Hcontent & _ & Hsize).
  rewrite Hsize, Hcontent. now split.
Qed.

Lemma query_records_values (d : qs_dict) (r : har.Record_) :
  values_nonempty d -> In r (query_records d) -> har.value r <> [].
Proof.
  intros Hd Hin. unfold query_records in Hin.
  apply in_flat_map in Hin as [[k vs] [Hk Hin]].
  apply in_map_iff in Hin as [v [<- Hv]]. cbn.
  exact (Hd k vs v Hk Hv).
Qed.

(** C10: a parameter of the query string whose value is empty (as [a] in
    [?a=&b=1]) is left out of [request.queryString]: a field [name=] of the
    query string gives no Record, and every Record of the built entry's
    [queryString] has a non-empty value. *)
Theorem C10_no_blank_query_values (clock : Z) (start : datetime)
  (req : requests.Request.t Any) (resp : requests.Response.t)
  (e : har.Entry.t) :
  requests_to_har_entry chk nf prepare clock start req resp = Ok e ->
  (forall r : har.Record_,
      In r (har.Request.queryString (har.Entry.request e)) ->
      har.value r <> [])
  /\ (forall name : pystr,
        contains (chr "=") name = false ->
        parse_field (name ++ [chr "="]) = []).
Proof.
  intros He. split; [|exact parse_field_blank].
  intros r.
  apply requests_to_har_entry_ok in He
    as (p & u & enc & body & pd & enc' & _ & _ & _ & _ & _ & _ & _ & _ & Hreq
        & _).
  rewrite Hreq. cbn [har.Request.queryString].
  apply query_records_values, parse_qs_values.
Qed.

(** X1: when the built entry has [request.postData], the request carries a
    body of bytes that is not empty, [postData.text] is that body decoded,
    and [postData.mimeType] is the value of the request's Content-Type
    header. *)
Theorem X1_post_data_when_present (clock : Z) (start : datetime)
  (req : requests.Request.t Any) (resp : requests.Response.t)
  (e : har.Entry.t) (p : requests.PreparedRequest.t) (pd : har.PostData.t) :
  requests_to_har_entry chk nf prepare clock start req resp = Ok e ->
  prepare req = Ok p ->
  har.Request.postData (har.Entry.request e) = Some pd ->
  exists b h,
    requests.PreparedRequest.body p = Some (requests.BodyBytes b)
    /\ b <> []
    /\ utf7_decode b = Some (har.PostData.text pd)
    /\ requests.PreparedRequest.headers p = Some h
    /\ requests.getitem h (lit "Content-Type")
       = Some (har.PostData.mimeType pd).
Proof.
  intros He Hp Hpost.
  apply requests_to_har_entry_ok in He
    as (p' & u & enc & body & pd' & enc' & _ & Hp' & _ & _ & Hbody & Hpd & _
        & _ & Hreq & _).
  rewrite Hp in Hp'. injection Hp' as <-.
  rewrite Hreq in Hpost. cbn [har.Request.postData] in Hpost. subst pd'.
  unfold decode_body in Hbody. unfold post_data in Hpd.
  destruct (requests.PreparedRequest.body p) as [[b|txt]|];
    [|discriminate|injection Hbody as <-; discriminate].
  destruct (utf7_decode b) as [t|] eqn:Hdec; [|discriminate].
  cbn [of_option bind] in Hbody. injection Hbody as <-.
  destruct t as [|c t]; [discriminate|]. cbn [is_empty] in Hpd.
  destruct (requests.PreparedRequest.headers p) as [h|]; [|discriminate].
  destruct (requests.getitem h (lit "Content-Type")) as [mime|] eqn:Hget;
    [|discriminate].
  cbn [of_option bind] in Hpd. injection Hpd as <-.
  exists b, h. cbn [har.PostData.text har.PostData.mimeType].
  repeat split; try reflexivity; try assumption.
  intros ->. discriminate Hdec.
Qed.

(** X2: a request whose prepared body is a [str], as [requests] leaves the
    encoding of form fields, never yields an entry: the builder raises on
    line 50, where a [str] has no [decode]. *)
Theorem X2_str_body_rejected (clock : Z) (start : datetime)
  (req : requests.Request.t Any) (resp : requests.Response.t)
  (p : requests.PreparedRequest.t) (text : pystr) :
  prepare req = Ok p ->
  requests.PreparedRequest.body p = Some (requests.BodyStr text) ->
  (forall e : har.Entry.t,
      requests_to_har_entry chk nf prepare clock start req resp <> Ok e)
  /\ (tzinfo start <> None ->
      urlsplit chk nf (requests.PreparedRequest.url p) <> None ->
      utf8_encode
        (joined_lines har.unpack
           (header_records (requests.PreparedRequest.headers p))) <> None ->
      requests_to_har_entry chk nf prepare clock start req resp
      = Err BodyNotBytes).
Proof.
  intros Hp Hbody. split.
  - intros e He.
    apply requests_to_har_entry_ok in He
      as (p' & u & enc & body & pd & enc' & _ & Hp' & _ & _ & Hb & _).
    rewrite Hp in Hp'. injection Hp' as <-.
    rewrite Hbody in Hb. discriminate Hb.
  - intros Htz Hu Henc. unfold requests_to_har_entry, prepare_request.
    destruct (tzinfo start); [|contradiction].
    rewrite Hp. cbn [bind].
    destruct (urlsplit chk nf (requests.PreparedRequest.url p));
      [|contradiction].
    cbn [of_option bind].
    destruct (utf8_encode _); [|contradiction].
    cbn [of_option bind]. rewrite Hbody. reflexivity.
Qed.

End BuilderProperties.

(** ** TestClient.request *)

Section ClientProperties.

Context {Any PrepareExn TransportExn Env : Type}.
Variables (chk nf : pystr -> bool).
Variable prepare :
  requests.Request.t Any -> result PrepareExn requests.PreparedRequest.t.
Variable clock : Env -> Z.
Variable urljoin : pystr -> pystr -> pystr.
Variable super_request :
  pystr -> Call.t Any -> Env -> result TransportExn requests.Response.t * Env.

(** When the delegated call returns a response, the builder an entry, and the
    writer is open, [request] returns that response and records that entry. *)
Lemma request_records (self : TestClient) (a : Call.t Any) (env env1 : Env)
  (response : requests.Response.t) (entry : har.Entry.t) :
  super_request (base_url self) a env = (Ok response, env1) ->
  requests_to_har_entry chk nf prepare (clock env1) (now_utc (clock env))
    (build_request urljoin self a) response = Ok entry ->
  closed (har_writer self) = false ->
  request chk nf prepare clock urljoin super_request self a env
  = (Ok response, recorded self entry, env1).
Proof.
  intros Hs Hb Hc. unfold request, write_entry, recorded.
  rewrite Hs, Hb, Hc. reflexivity.
Qed.

(** A call that returns went through exactly these steps. *)
Lemma request_returns (self self' : TestClient) (a : Call.t Any)
  (env env' : Env) (r : requests.Response.t) :
  request chk nf prepare clock urljoin super_request self a env
  = (Ok r, self', env') ->
  super_request (base_url self) a env = (Ok r, env')
  /\ closed (har_writer self) = false
  /\ exists entry,
       requests_to_har_entry chk nf prepare (clock env') (now_utc (clock env))
         (build_request urljoin self a) r = Ok entry
       /\ self' = recorded self entry.
Proof.
  unfold request, write_entry, recorded.
  destruct (super_request (base_url self) a env) as [[resp|ex] env1];
    [|discriminate].
  destruct (requests_to_har_entry chk nf prepare (clock env1)
              (now_utc (clock env)) (build_request urljoin self a) resp)
    as [entry|ex] eqn:Hb; [|discriminate].
  destruct (closed (har_writer self)) eqn:Hc; [discriminate|].
  intros H. injection H as <- <- <-.
  split; [reflexivity|]. split; [reflexivity|].
  exists entry. now split.
Qed.

(** When the builder raises, [request] raises the same exception and writes
    nothing. *)
Lemma request_recording_fails (self : TestClient) (a : Call.t Any)
  (env env1 : Env) (response : requests.Response.t)
  (e : build_error PrepareExn) :
  super_request (base_url self) a env = (Ok response, env1) ->
  requests_to_har_entry chk nf prepare (clock env1) (now_utc (clock env))
    (build_request urljoin self a) response = Err e ->
  request chk nf prepare clock urljoin super_request self a env
  = (Err (RecordingFailed e), self, env1).
Proof.
  intros Hs Hb. unfold request. rewrite Hs, Hb. reflexivity.
Qed.

(** When the writer is closed, [request] raises and writes nothing. *)
Lemma request_sink_closed (self : TestClient) (a : Call.t Any)
  (env env1 : Env) (response : requests.Response.t) (entry : har.Entry.t) :
  super_request (base_url self) a env = (Ok response, env1) ->
  requests_to_har_entry chk nf prepare (clock env1) (now_utc (clock env))
    (build_request urljoin self a) response = Ok entry ->
  closed (har_writer self) = true ->
  request chk nf prepare clock urljoin super_request self a env
  = (Err SinkClosed, self, env1).
Proof.
  intros Hs Hb Hc. unfold request, write_entry. rewrite Hs, Hb, Hc.
  reflexivity.
Qed.

(** After [__exit__] a call that the delegated client answers raises
    [SinkClosed]. *)
Lemma request_after_exit (self : TestClient) (a : Call.t Any)
  (env env1 : Env) (response : requests.Response.t) (entry : har.Entry.t) :
  super_request (base_url self) a env = (Ok response, env1) ->
  requests_to_har_entry chk nf prepare (clock env1) (now_utc (clock env))
    (build_request urljoin self a) response = Ok entry ->
  request chk nf prepare clock urljoin super_request (exit_ self) a env
  = (Err SinkClosed, exit_ self, env1).
Proof.
  intros Hs Hb.
  exact (request_sink_closed (exit_ self) a env env1 response entry Hs Hb
           eq_refl).
Qed.

(** C7, as amended: for every call of [request] in which the delegated
    client returns a response, when the recording succeeds (the builder makes
    an entry and the writer is open) that response is returned to the caller
    as it is, the sink holds exactly one entry more, and the world is the one
    a single delegated call leaves (the call is not made again); when the
    recording fails, its exception reaches the caller in place of the
    response and the sink is left as it was. *)
Theorem C7_response_returned_unchanged (self : TestClient) (a : Call.t Any)
  (env env1 : Env) (response : requests.Response.t) :
  super_request (base_url self) a env = (Ok response, env1) ->
  (forall entry,
      requests_to_har_entry chk nf prepare (clock env1) (now_utc (clock env))
        (build_request urljoin self a) response = Ok entry ->
      closed (har_writer self) = false ->
      request chk nf prepare clock urljoin super_request self a env
      = (Ok response, recorded self entry, env1)
      /\ entries (har_writer (recorded self entry))
         = entries (har_writer self) ++ [entry])
  /\ (forall entry,
        requests_to_har_entry chk nf prepare (clock env1)
          (now_utc (clock env)) (build_request urljoin self a) response
        = Ok entry ->
        closed (har_writer self) = true ->
        request chk nf prepare clock urljoin super_request self a env
        = (Err SinkClosed, self, env1))
  /\ (forall e,
        requests_to_har_entry chk nf prepare (clock env1)
          (now_utc (clock env)) (build_request urljoin self a) response
        = Err e ->
        request chk nf prepare clock urljoin super_request self a env
        = (Err (RecordingFailed e), self, env1)).
Proof.
  intros Hs. split; [|split].
  - intros entry Hb Hc. split; [|reflexivity].
    exact (request_records self a env env1 response entry Hs Hb Hc).
  - intros entry Hb Hc.
    exact (request_sink_closed self a env env1 response entry Hs Hb Hc).
  - intros e Hb.
    exact (request_recording_fails self a env env1 response e Hs Hb).
Qed.

(** C8, as amended: two calls of [request] made one after the other on one
    client, both returning a response, append exactly two entries to the
    sink, the first call's before the second's; when the clock is not set
    back during the first call nor between the two calls, the second entry's
    [startedDateTime] is not earlier than the first's. *)
Theorem C8_two_calls_in_order (self self1 self2 : TestClient)
  (a1 a2 : Call.t Any) (env env1 env1' env2 : Env)
  (r1 r2 : requests.Response.t) :
  request chk nf prepare clock urljoin super_request self a1 env
  = (Ok r1, self1, env1) ->
  request chk nf prepare clock urljoin super_request self1 a2 env1'
  = (Ok r2, self2, env2) ->
  exists e1 e2,
    entries (har_writer self2) = entries (har_writer self) ++ [e1; e2]
    /\ requests_to_har_entry chk nf prepare (clock env1)
         (now_utc (clock env)) (build_request urljoin self a1) r1 = Ok e1
    /\ requests_to_har_entry chk nf prepare (clock env2)
         (now_utc (clock env1')) (build_request urljoin self1 a2) r2 = Ok e2
    /\ har.Entry.startedDateTime e1 = now_utc (clock env)
    /\ har.Entry.startedDateTime e2 = now_utc (clock env1')
    /\ ((clock env <= clock env1)%Z -> (clock env1 <= clock env1')%Z ->
        (micros (har.Entry.startedDateTime e1)
         <= micros (har.Entry.startedDateTime e2))%Z).
Proof.
  intros H1 H2.
  apply request_returns in H1 as (_ & _ & e1 & Hb1 & ->).
  apply request_returns in H2 as (_ & _ & e2 & Hb2 & ->).
  exists e1, e2. cbn [recorded har_writer entries].
  rewrite <- app_assoc. split; [reflexivity|].
  split; [exact Hb1|]. split; [exact Hb2|].
  apply requests_to_har_entry_ok in Hb1
    as (? & ? & ? & ? & ? & ? & _ & _ & _ & _ & _ & _ & _ & Hstart1 & _).
  apply requests_to_har_entry_ok in Hb2
    as (? & ? & ? & ? & ? & ? & _ & _ & _ & _ & _ & _ & _ & Hstart2 & _).
  split; [exact Hstart1|]. split; [exact Hstart2|].
  rewrite Hstart1, Hstart2. cbn [micros now_utc]. lia.
Qed.

(** C6, as amended: GET on [/items?x=1] against a server that answers 200
    with the header [Content-Type: application/json] and the body
    [{"ok":true}] records an entry with [request.method] GET, [request.url]
    ending in [/items] with no query, [request.queryString] the one Record
    (x,1), [response.status] 200, [response.content.text] the body, and
    [response.content.size] 11, the number of characters of the body. *)
Theorem C6_get_items_scenario (self : TestClient) (env env1 : Env)
  (response : requests.Response.t) :
  urljoin (base_url self) (lit "/items?x=1")
  = lit "http://testserver/items?x=1" ->
  prepare
    (requests.Request.mk (lit "GET") (lit "http://testserver/items?x=1")
       None None (requests.DataMapping []) None (requests.DataMapping [])
       None None None)
  = Ok (requests.PreparedRequest.mk (lit "GET")
          (lit "http://testserver/items?x=1") (Some []) None []) ->
  super_request (base_url self) (call "GET" "/items?x=1" None None) env
  = (Ok response, env1) ->
  requests.Response.status_code response = 200%Z ->
  requests.Response.headers response
  = [(lit "Content-Type", lit "application/json")] ->
  requests.Response.text response = ok_true ->
  closed (har_writer self) = false ->
  exists entry,
    request chk nf prepare clock urljoin super_request self
      (call "GET" "/items?x=1" None None) env
    = (Ok response, recorded self entry, env1)
    /\ har.Request.method (har.Entry.request entry) = lit "GET"
    /\ har.Request.url (har.Entry.request entry)
       = lit "http://testserver/items"
    /\ har.Request.queryString (har.Entry.request entry)
       = [har.mkRecord (lit "x") (lit "1")]
    /\ har.Response.status (har.Entry.response entry) = 200%Z
    /\ har.ResponseContent.text
         (har.Response.content (har.Entry.response entry)) = ok_true
    /\ har.ResponseContent.size
         (har.Response.content (har.Entry.response entry)) = 11%Z.
Proof.
  intros Hjoin Hp Hs Hstatus Hheaders Htext Hopen.
  assert (Hreq : prepare
            (build_request urljoin self (call "GET" "/items?x=1" None None))
          = Ok (requests.PreparedRequest.mk (lit "GET")
                  (lit "http://testserver/items?x=1") (Some []) None [])).
  { unfold build_request. cbn [call Call.url Call.method Call.headers
      Call.files Call.data Call.json Call.params Call.auth Call.cookies
      Call.hooks requests.or_empty_dict].
    rewrite Hjoin. exact Hp. }
  destruct (requests_to_har_entry chk nf prepare (clock env1)
              (now_utc (clock env))
              (build_request urljoin self (call "GET" "/items?x=1" None None))
              response)
    as [entry|ex] eqn:Hb.
  - exists entry.
    split; [now apply request_records|].
    unfold requests_to_har_entry, prepare_request in Hb.
    rewrite Hreq, Hheaders, Htext, Hstatus in Hb.
    injection Hb as <-. cbn. repeat split; reflexivity.
  - exfalso. unfold requests_to_har_entry, prepare_request in Hb.
    rewrite Hreq, Hheaders in Hb. discriminate Hb.
Qed.

End ClientProperties.

(** ** The statements at work on the stand-ins *)

Lemma C1_query_string_and_url_witness :
  exists e p u,
    simple_entry 1001500 aware_start search_request json_response = Ok e
    /\ simple_prepare search_request = Ok p
    /\ urlsplit netloc_passes netloc_passes (requests.PreparedRequest.url p)
       = Some u
    /\ query u = lit "a=1&a=2&b=3"
    /\ har.Request.queryString (har.Entry.request e)
       = [har.mkRecord (lit "a") (lit "1"); har.mkRecord (lit "a") (lit "2");
          har.mkRecord (lit "b") (lit "3")]
    /\ contains (chr "?") (har.Request.url (har.Entry.request e)) = false
    /\ contains (chr "#") (har.Request.url (har.Entry.request e)) = false.
Proof.
  do 3 eexists.
  split; [vm_compute; reflexivity|].
  split; [vm_compute; reflexivity|].
  split; [vm_compute; reflexivity|].
  split; [reflexivity|].
  eapply (C1_query_string_and_url netloc_passes netloc_passes simple_prepare
            1001500 aware_start search_request json_response);
    vm_compute; reflexivity.
Defined.




Lemma X1_post_data_when_present_witness :
  exists e p pd,
    simple_entry 1001500 aware_start note_request json_response = Ok e
    /\ simple_prepare note_request = Ok p
    /\ har.Request.postData (har.Entry.request e) = Some pd
    /\ exists b h,
         requests.PreparedRequest.body p = Some (requests.BodyBytes b)
         /\ b <> []
         /\ utf7_decode b = Some (har.PostData.text pd)
         /\ requests.PreparedRequest.headers p = Some h
         /\ requests.getitem h (lit "Content-Type")
            = Some (har.PostData.mimeType pd).
Proof.
  do 3 eexists.
  split; [vm_compute; reflexivity|].
  split; [vm_compute; reflexivity|].
  split; [vm_compute; reflexivity|].
  eapply (X1_post_data_when_present netloc_passes netloc_passes
            simple_prepare 1001500 aware_start note_request json_response);
    vm_compute; reflexivity.
Defined.

Lemma X2_str_body_rejected_witness :
  simple_prepare form_request
  = Ok (requests.PreparedRequest.mk (lit "POST")
          (lit "http://testserver/login") (Some []) 
          (Some (requests.BodyStr (lit "user=x"))) [])
  /\ simple_entry 1001500 aware_start form_request json_response
     = Err BodyNotBytes.
Proof.
  split; [reflexivity|].
  apply (X2_str_body_rejected netloc_passes netloc_passes simple_prepare
           1001500 aware_start form_request json_response
           (requests.PreparedRequest.mk (lit "POST")
              (lit "http://testserver/login") (Some [])
              (Some (requests.BodyStr (lit "user=x"))) [])
           (lit "user=x") eq_refl eq_refl);
    discriminate.
Defined.

Lemma C4_naive_start_rejected_witness :
  simple_entry 1001500 naive_start note_request json_response
  = Err InvalidTimestamp
  /\ simple_entry 1001500 aware_start note_request json_response
     <> Err InvalidTimestamp.
Proof.
  split.
  - apply (C4_naive_start_rejected netloc_passes netloc_passes simple_prepare
             1001500 naive_start note_request json_response).
    reflexivity.
  - intros H.
    apply (C4_naive_start_rejected netloc_passes netloc_passes simple_prepare
             1001500 aware_start note_request json_response) in H.
    discriminate H.
Defined.

(** C5, at the failing input: a request whose encoded body is the single
    octet [+] yields an entry without [postData], although the body is not
    empty, because the utf-7 codec reads a lone [+] as the start of an empty
    base-64 section. *)
Lemma C5_lone_plus_body_without_post_data :
  exists e p,
    simple_entry 1001500 aware_start lone_plus_request json_response = Ok e
    /\ simple_prepare lone_plus_request = Ok p
    /\ requests.PreparedRequest.body p = Some (requests.BodyBytes (lit "+"))
    /\ lit "+" <> []
    /\ har.Request.postData (har.Entry.request e) = None
    /\ har.Request.bodySize (har.Entry.request e) = 0%Z.
Proof.
  do 2 eexists.
  split; [vm_compute; reflexivity|].
  split; [vm_compute; reflexivity|].
  repeat split; try (vm_compute; reflexivity). discriminate.
Qed.

Lemma C6_get_items_scenario_witness :
  exists entry,
    simple_request testserver get_items 1000000
    = (Ok json_response, recorded testserver entry, 1001500%Z)
    /\ har.Request.method (har.Entry.request entry) = lit "GET"
    /\ har.Request.url (har.Entry.request entry)
       = lit "http://testserver/items"
    /\ har.Request.queryString (har.Entry.request entry)
       = [har.mkRecord (lit "x") (lit "1")]
    /\ har.Response.status (har.Entry.response entry) = 200%Z
    /\ har.ResponseContent.text
         (har.Response.content (har.Entry.response entry)) = ok_true
    /\ har.ResponseContent.size
         (har.Response.content (har.Entry.response entry)) = 11%Z.
Proof.
  apply (C6_get_items_scenario netloc_passes netloc_passes simple_prepare
           (fun t : Z => t) simple_urljoin json_server testserver
           1000000%Z 1001500%Z json_response);
    reflexivity.
Defined.

(** The entry recorded in the scenario of C6 has [response.content.size] 11,
    not 12: the claim as it stands does not hold. *)
Lemma C6_size_counterexample :
  exists entry,
    simple_request testserver get_items 1000000
    = (Ok json_response, recorded testserver entry, 1001500%Z)
    /\ requests.Response.status_code json_response = 200%Z
    /\ requests.Response.headers json_response
       = [(lit "Content-Type", lit "application/json")]
    /\ requests.Response.text json_response = ok_true
    /\ har.ResponseContent.text
         (har.Response.content (har.Entry.response entry)) = ok_true
    /\ har.ResponseContent.size
         (har.Response.content (har.Entry.response entry)) <> 12%Z.
Proof.
  eexists.
  split; [vm_compute; reflexivity|].
  repeat split; try reflexivity. vm_compute. discriminate.
Qed.

Lemma C7_response_returned_unchanged_witness :
  exists entry,
    json_server (base_url testserver) get_items 1000000
    = (Ok json_response, 1001500%Z)
    /\ simple_entry 1001500 (now_utc 1000000)
         (build_request simple_urljoin testserver get_items) json_response
       = Ok entry
    /\ simple_request testserver get_items 1000000
       = (Ok json_response, recorded testserver entry, 1001500%Z)
    /\ entries (har_writer (recorded testserver entry))
       = entries (har_writer testserver) ++ [entry].
Proof.
  eexists.
  split; [reflexivity|].
  split; [vm_compute; reflexivity|].
  apply (proj1 (C7_response_returned_unchanged netloc_passes netloc_passes
                  simple_prepare (fun t : Z => t) simple_urljoin json_server
                  testserver get_items 1000000%Z 1001500%Z json_response
                  eq_refl)).
  - vm_compute. reflexivity.
  - reflexivity.
Defined.

(** The delegated client returns a response to a POST of three octets sent
    without a Content-Type header, and the caller of [request] gets the
    [KeyError] of line 66 instead; nothing is written.  The claim C7 as it
    stands does not hold. *)
Lemma C7_recording_failure_counterexample :
  json_server (base_url testserver) post_abc 1000000
  = (Ok json_response, 1001500%Z)
  /\ simple_request testserver post_abc 1000000
     = (Err (RecordingFailed MissingContentType), testserver, 1001500%Z).
Proof.
  split; [reflexivity|].
  vm_compute. reflexivity.
Qed.

Lemma C8_two_calls_in_order_witness :
  exists self1 self2,
    simple_request testserver get_items 1000000
    = (Ok json_response, self1, 1001500%Z)
    /\ simple_request self1 get_items 1002000
       = (Ok json_response, self2, 1003500%Z)
    /\ exists e1 e2,
         entries (har_writer self2)
         = entries (har_writer testserver) ++ [e1; e2]
         /\ har.Entry.startedDateTime e1 = now_utc 1000000
         /\ har.Entry.startedDateTime e2 = now_utc 1002000
         /\ (micros (har.Entry.startedDateTime e1)
             <= micros (har.Entry.startedDateTime e2))%Z.
Proof.
  do 2 eexists.
  split; [vm_compute; reflexivity|].
  split; [vm_compute; reflexivity|].
  pose proof (fun self1 self2 =>
                C8_two_calls_in_order netloc_passes netloc_passes
                  simple_prepare (fun t : Z => t) simple_urljoin json_server
                  testserver self1 self2 get_items get_items 1000000%Z
                  1001500%Z 1002000%Z 1003500%Z json_response json_response)
    as Hcalls.
  edestruct Hcalls
    as (e1 & e2 & Hentries & _ & _ & Hstart1 & Hstart2 & Hle).
  - vm_compute. reflexivity.
  - vm_compute. reflexivity.
  - exists e1, e2.
    split; [exact Hentries|]. split; [exact Hstart1|].
    split; [exact Hstart2|]. apply Hle; lia.
Defined.

Lemma C9_response_sizes_witness :
  exists e,
    simple_entry 1001500 aware_start note_request json_response = Ok e
    /\ len (requests.Response.text json_response) = 11%Z
    /\ har.Response.bodySize (har.Entry.response e)
       = har.ResponseContent.size
           (har.Response.content (har.Entry.response e))
    /\ har.ResponseContent.size (har.Response.content (har.Entry.response e))
       = len (requests.Response.text json_response).
Proof.
  eexists.
  split; [vm_compute; reflexivity|].
  split; [reflexivity|].
  apply (C9_response_sizes netloc_passes netloc_passes simple_prepare
           1001500 aware_start note_request json_response).
  vm_compute. reflexivity.
Defined.

Lemma C10_no_blank_query_values_witness :
  exists e,
    simple_entry 1001500 aware_start blank_request json_response = Ok e
    /\ har.Request.queryString (har.Entry.request e)
       = [har.mkRecord (lit "b") (lit "1")]
    /\ parse_field (lit "a=") = []
    /\ forall r : har.Record_,
         In r (har.Request.queryString (har.Entry.request e)) ->
         har.value r <> [].
Proof.
  eexists.
  split; [vm_compute; reflexivity|].
  split; [reflexivity|].
  destruct (C10_no_blank_query_values netloc_passes netloc_passes
              simple_prepare 1001500 aware_start blank_request json_response
              _ eq_refl) as [Hvalues Hblank].
  split; [exact (Hblank (lit "a") eq_refl)|exact Hvalues].
Defined.

(** Two calls in a row of which the first fails to record leave one entry in
    the sink, not two; and where the clock is set back during the first call,
    the second entry starts before the first.  The claim C8 as it stands does
    not hold. *)
Lemma C8_two_calls_counterexample :
  (exists self2 e,
      simple_request testserver post_abc 1000000
      = (Err (RecordingFailed MissingContentType), testserver, 1001500%Z)
      /\ simple_request testserver get_items 1002000
         = (Ok json_response, self2, 1003500%Z)
      /\ entries (har_writer self2) = [e])
  /\ (exists self1 self2 e1 e2,
        clock_reset_request testserver get_items 10000000
        = (Ok json_response, self1, 5000000%Z)
        /\ clock_reset_request self1 get_items 5000000
           = (Ok json_response, self2, 0%Z)
        /\ entries (har_writer self2) = [e1; e2]
        /\ (micros (har.Entry.startedDateTime e2)
            < micros (har.Entry.startedDateTime e1))%Z).
Proof.
  split.
  - do 2 eexists.
    split; [vm_compute; reflexivity|].
    split; [vm_compute; reflexivity|].
    reflexivity.
  - do 4 eexists.
    split; [vm_compute; reflexivity|].
    split; [vm_compute; reflexivity|].
    split; [reflexivity|].
    vm_compute. reflexivity.
Qed.

(** * Further properties of the code *)

(** ** Codecs and header blocks *)

Lemma is_base64_ascii (c : N) : is_base64 c = true -> c < 128.
Proof.
  unfold is_base64, is_upper_ascii, is_lower_ascii, is_digit.
  change (chr "+") with 43. change (chr "/") with 47.
  intros H.
  repeat (apply orb_true_iff in H as [H|H]);
    try (apply andb_true_iff in H as [_ H]; apply N.leb_le in H; lia);
    apply N.eqb_eq in H; lia.
Qed.

(** The strict utf-7 decoder accepts no octet above 127, in or out of a
    base-64 section. *)
Lemma utf7_decode_from_high_octet (n : nat) :
  forall (s : pybytes) (inShift : bool) (bits buf sur : N),
    (List.length s <= n)%nat ->
    existsb (fun b => 128 <=? b) s = true ->
    utf7_decode_from inShift bits buf sur s = None.
Proof.
  induction n as [|n IH]; intros s inShift bits buf sur Hlen Hhigh.
  - destruct s; [discriminate Hhigh|simpl in Hlen; lia].
  - destruct s as [|ch rest]; [discriminate Hhigh|].
    cbn [List.length] in Hlen.
    assert (Hrest : forall i b f r,
               existsb (fun b => 128 <=? b) rest = true ->
               utf7_decode_from i b f r rest = None).
    { intros. apply IH; [lia|assumption]. }
    cbn [existsb] in Hhigh. cbn [utf7_decode_from].
    destruct (128 <=? ch) eqn:Hch.
    + apply N.leb_le in Hch.
      assert (Hb : is_base64 ch = false).
      { destruct (is_base64 ch) eqn:E; [|reflexivity].
        apply is_base64_ascii in E. lia. }
      assert (Hd : decode_direct ch = false).
      { unfold decode_direct. replace (ch <=? 127) with false; [reflexivity|].
        symmetry. apply N.leb_gt. lia. }
      assert (Hplus : (ch =? chr "+") = false)
        by (change (chr "+") with 43; apply N.eqb_neq; lia).
      assert (Hminus : (ch =? chr "-") = false)
        by (change (chr "-") with 45; apply N.eqb_neq; lia).
      rewrite ?Hb, ?Hd, ?Hplus, ?Hminus.
      destruct inShift; [|reflexivity].
      destruct (6 <=? bits); [reflexivity|].
      destruct ((0 <? bits) && negb (buf =? 0)); reflexivity.
    + cbn [orb] in Hhigh.
      destruct inShift.
      * destruct (is_base64 ch).
        -- cbv zeta.
           repeat match goal with
                  | |- context [if ?c then _ else _] => destruct c
                  end;
             unfold option_map_cons; rewrite ?Hrest by assumption;
             reflexivity.
        -- destruct (6 <=? bits); [reflexivity|].
           destruct ((0 <? bits) && negb (buf =? 0)); [reflexivity|].
           cbv zeta.
           destruct (ch =? chr "-");
             [|destruct (decode_direct ch)];
             rewrite ?Hrest by assumption; reflexivity.
      * destruct (ch =? chr "+").
        -- destruct rest as [|c2 rest2]; [discriminate Hhigh|].
           destruct (c2 =? chr "-") eqn:Hc2.
           ++ unfold option_map_cons. rewrite IH; [reflexivity| |].
              ** cbn [List.length] in Hlen. lia.
              ** cbn [existsb] in Hhigh. apply N.eqb_eq in Hc2. subst c2.
                 exact Hhigh.
           ++ destruct (negb (is_base64 c2)); [reflexivity|].
              now apply Hrest.
        -- destruct (decode_direct ch); [|reflexivity].
           unfold option_map_cons. now rewrite Hrest.
Qed.

Lemma utf7_decode_high_octet (b : pybytes) :
  existsb (fun x => 128 <=? x) b = true -> utf7_decode b = None.
Proof.
  intros H. unfold utf7_decode.
  exact (utf7_decode_from_high_octet (List.length b) b false 0 0 0
           (Nat.le_refl _) H).
Qed.


Lemma utf8_width_bounds (c : codepoint) : (1 <= utf8_width c <= 4)%Z.
Proof.
  unfold utf8_width.
  destruct (c <? 0x80), (c <? 0x800), (c <? 0x10000); lia.
Qed.

Lemma utf8_byte_length_bounds (s : pystr) :
  (len s <= utf8_byte_length s <= 4 * len s)%Z.
Proof.
  unfold utf8_byte_length, len.
  induction s as [|c s IH]; cbn [fold_right List.length]; [lia|].
  pose proof (utf8_width_bounds c). lia.
Qed.


Lemma joined_pairs_block (h : requests.Headers) :
  joined_lines (fun kv => kv) h = header_block h.
Proof.
  unfold joined_lines, header_block. f_equal.
  apply map_ext. now intros [k v].
Qed.

(** ** The entry builder: when it builds, and what it raises *)

Section BuilderFurther.

Context {Any PrepareExn : Type}.
Variables (chk nf : pystr -> bool).
Variable prepare :
  requests.Request.t Any -> result PrepareExn requests.PreparedRequest.t.



(** X4: in every built entry [request.postData] is absent exactly when
    [request.bodySize] is 0, and when it is present [bodySize] is the number
    of characters of [postData.text]. *)
Theorem X4_post_data_and_body_size (clock : Z) (start : datetime)
  (req : requests.Request.t Any) (resp : requests.Response.t)
  (e : har.Entry.t) :
  requests_to_har_entry chk nf prepare clock start req resp = Ok e ->
  (har.Request.postData (har.Entry.request e) = None
   <-> har.Request.bodySize (har.Entry.request e) = 0%Z)
  /\ (forall pd,
        har.Request.postData (har.Entry.request e) = Some pd ->
        har.Request.bodySize (har.Entry.request e)
        = len (har.PostData.text pd)
        /\ (0 < har.Request.bodySize (har.Entry.request e))%Z).
Proof.
  intros He.
  apply requests_to_har_entry_ok in He
    as (p & u & enc & body & pd & enc' & _ & _ & _ & _ & _ & Hpd & _ & _
        & Hreq & _).
  rewrite Hreq. cbn [har.Request.postData har.Request.bodySize].
  unfold post_data in Hpd. unfold body_size, len.
  destruct body as [[|c t]|]; cbn [is_empty] in Hpd.
  - injection Hpd as <-. split; [now split|discriminate].
  - destruct (requests.PreparedRequest.headers p) as [h|]; [|discriminate].
    destruct (requests.getitem h (lit "Content-Type")) as [mime|];
      [|discriminate].
    cbn [of_option bind] in Hpd. injection Hpd as <-.
    split.
    + split; [discriminate|]. cbn [List.length]. lia.
    + intros pd' H. injection H as <-. cbn [har.PostData.text List.length].
      lia.
  - injection Hpd as <-. split; [now split|discriminate].
Qed.

(** X5: a request whose body holds an octet above 127, as the UTF-8 encoding
    of any character outside ASCII does, yields no entry: the utf-7 codec of
    line 50 rejects it, and the builder raises its [UnicodeDecodeError] as
    soon as the steps before line 50 pass. *)
Theorem X5_high_octet_body_rejected (clock : Z) (start : datetime)
  (req : requests.Request.t Any) (resp : requests.Response.t)
  (p : requests.PreparedRequest.t) (b : pybytes) :
  prepare req = Ok p ->
  requests.PreparedRequest.body p = Some (requests.BodyBytes b) ->
  existsb (fun x => 128 <=? x) b = true ->
  (forall e : har.Entry.t,
      requests_to_har_entry chk nf prepare clock start req resp <> Ok e)
  /\ (tzinfo start <> None ->
      urlsplit chk nf (requests.PreparedRequest.url p) <> None ->
      utf8_encode (header_block (headers_of p)) <> None ->
      requests_to_har_entry chk nf prepare clock start req resp
      = Err BodyNotDecodable).
Proof.
  intros Hp Hbody Hhigh.
  pose proof (utf7_decode_high_octet b Hhigh) as Hdec.
  split.
  - intros e He.
    apply requests_to_har_entry_ok in He
      as (p' & u & enc & body & pd & enc' & _ & Hp' & _ & _ & Hb & _).
    rewrite Hp in Hp'. injection Hp' as <-.
    rewrite Hbody in Hb. unfold decode_body in Hb. rewrite Hdec in Hb.
    discriminate Hb.
  - intros Htz Hu Henc. unfold requests_to_har_entry, prepare_request.
    destruct (tzinfo start); [|contradiction].
    rewrite Hp. cbn [bind].
    destruct (urlsplit chk nf (requests.PreparedRequest.url p));
      [|contradiction].
    cbn [of_option bind].
    rewrite joined_records_block. fold (headers_of p).
    destruct (utf8_encode (header_block (headers_of p))); [|contradiction].
    cbn [of_option bind]. rewrite Hbody. unfold decode_body.
    rewrite Hdec. reflexivity.
Qed.

(** X6: a request whose body decodes to a text that is not empty and whose
    headers hold no Content-Type, in any case of the letters, makes the
    builder raise the [KeyError] of line 66 once the steps before it pass;
    no entry is built. *)
Theorem X6_missing_content_type (clock : Z) (start : datetime)
  (req : requests.Request.t Any) (resp : requests.Response.t)
  (p : requests.PreparedRequest.t) (b : pybytes) (c : codepoint)
  (text : pystr) (h : requests.Headers) :
  prepare req = Ok p ->
  requests.PreparedRequest.body p = Some (requests.BodyBytes b) ->
  utf7_decode b = Some (c :: text) ->
  requests.PreparedRequest.headers p = Some h ->
  forallb (fun kv => negb (str_eqb (lower (fst kv)) (lit "content-type"))) h
  = true ->
  tzinfo start <> None ->
  urlsplit chk nf (requests.PreparedRequest.url p) <> None ->
  utf8_encode (header_block h) <> None ->
  requests_to_har_entry chk nf prepare clock start req resp
  = Err MissingContentType.
Proof.
  intros Hp Hbody Hdec Hh Hnone Htz Hu Henc.
  assert (Hget : requests.getitem h (lit "Content-Type") = None).
  { clear - Hnone. induction h as [|[k v] h IH]; [reflexivity|].
    cbn [forallb fst] in Hnone. apply andb_true_iff in Hnone as [Hk Hrest].
    cbn [requests.getitem].
    change (lower (lit "Content-Type")) with (lit "content-type").
    apply negb_true_iff in Hk. rewrite Hk. now apply IH. }
  unfold requests_to_har_entry, prepare_request.
  destruct (tzinfo start); [|contradiction].
  rewrite Hp. cbn [bind].
  destruct (urlsplit chk nf (requests.PreparedRequest.url p));
    [|contradiction].
  cbn [of_option bind].
  rewrite joined_records_block, Hh.
  destruct (utf8_encode (header_block h)); [|contradiction].
  cbn [of_option bind]. rewrite Hbody. unfold decode_body. rewrite Hdec.
  cbn [of_option bind]. unfold post_data. cbn [is_empty]. rewrite Hget.
  reflexivity.
Qed.

End BuilderFurther.

(** ** The entry builder: the fields of the entry *)

Section BuilderFields.

Context {Any PrepareExn : Type}.
Variables (chk nf : pystr -> bool).
Variable prepare :
  requests.Request.t Any -> result PrepareExn requests.PreparedRequest.t.

(** The entry that a successful call returns, as a whole. *)
Lemma requests_to_har_entry_value (clock : Z) (start : datetime)
  (req : requests.Request.t Any) (resp : requests.Response.t)
  (e : har.Entry.t) :
  requests_to_har_entry chk nf prepare clock start req resp = Ok e ->
  exists p u enc body pd enc',
    prepare req = Ok p
    /\ urlsplit chk nf (requests.PreparedRequest.url p) = Some u
    /\ utf8_encode (header_block (headers_of p)) = Some enc
    /\ utf8_encode (header_block (requests.Response.headers resp))
       = Some enc'
    /\ e = har.Entry.mk start
             (milliseconds_between (now_utc clock) start)
             (har.Request.mk
                (requests.PreparedRequest.method p)
                (urlunparse (scheme u) (netloc u) (path u) [] [] [])
                (lit "HTTP/1.1")
                (map cookie_record (requests.PreparedRequest._cookies p))
                (header_records (requests.PreparedRequest.headers p))
                (query_records (parse_qs (query u)))
                pd (len enc) (body_size body))
             (har.Response.mk
                (requests.Response.status_code resp)
                (requests.Response.reason resp)
                (lit "HTTP/1.1")
                (map cookie_record (requests.Response.cookies resp))
                (map to_record (requests.Response.headers resp))
                (har.ResponseContent.mk (len (requests.Response.text resp))
                   (match requests.getitem (requests.Response.headers resp)
                            (lit "Content-Type") with
                    | None => []
                    | Some v => v
                    end)
                   (requests.Response.text resp))
                (requests.Response.url resp)
                (len enc')
                (len (requests.Response.text resp)))
             har.mkCache
             (har.Timings.mk 0%Q
                (milliseconds_between (now_utc clock) start) 0%Q).
Proof.
  unfold requests_to_har_entry, prepare_request.
  destruct (tzinfo start) as [tz|]; [|discriminate].
  destruct (prepare req) as [p|ex] eqn:Hp; [|discriminate].
  cbn [bind].
  destruct (urlsplit chk nf (requests.PreparedRequest.url p)) as [u|]
    eqn:Hu; [|discriminate].
  cbn [of_option bind].
  rewrite joined_records_block, joined_pairs_block. fold (headers_of p).
  destruct (utf8_encode (header_block (headers_of p))) as [enc|] eqn:Henc;
    [|discriminate].
  cbn [of_option bind].
  destruct (decode_body (requests.PreparedRequest.body p)) as [body|ex];
    [|discriminate].
  cbn [bind].
  destruct (post_data (requests.PreparedRequest.headers p) body) as [pd|ex];
    [|discriminate].
  cbn [bind].
  destruct (utf8_encode (header_block (requests.Response.headers resp)))
    as [enc'|] eqn:Henc'; [|discriminate].
  cbn [of_option bind].
  intros H. injection H as <-.
  exists p, u, enc, body, pd, enc'.
  repeat split; try assumption; reflexivity.
Qed.

(** X7: for every built entry [response.headersSize] is the UTF-8 byte
    length of the response's header lines ["key: value"] joined with line
    feeds; it is 0 for a response without headers, and it lies between the
    number of characters of that block and four times it. *)
Theorem X7_response_headers_size (clock : Z) (start : datetime)
  (req : requests.Request.t Any) (resp : requests.Response.t)
  (e : har.Entry.t) :
  requests_to_har_entry chk nf prepare clock start req resp = Ok e ->
  har.Response.headersSize (har.Entry.response e)
  = utf8_byte_length (header_block (requests.Response.headers resp))
  /\ (requests.Response.headers resp = [] ->
      har.Response.headersSize (har.Entry.response e) = 0%Z)
  /\ (len (header_block (requests.Response.headers resp))
      <= har.Response.headersSize (har.Entry.response e)
      <= 4 * len (header_block (requests.Response.headers resp)))%Z.
Proof.
  intros He.
  apply requests_to_har_entry_value in He
    as (p & u & enc & body & pd & enc' & _ & _ & _ & Henc' & ->).
  cbn [har.Entry.response har.Response.headersSize].
  apply utf8_encode_length in Henc'. rewrite Henc'.
  split; [reflexivity|]. split.
  - intros ->. reflexivity.
  - apply utf8_byte_length_bounds.
Qed.


Lemma getitem_absent (h : requests.Headers) (key : pystr) :
  forallb (fun kv => negb (str_eqb (lower (fst kv)) (lower key))) h = true ->
  requests.getitem h key = None.
Proof.
  induction h as [|[k v] h IH]; [reflexivity|].
  cbn [forallb fst requests.getitem]. intros H.
  apply andb_true_iff in H as [Hk Hrest].
  apply negb_true_iff in Hk. rewrite Hk. now apply IH.
Qed.

Lemma getitem_first (before after : requests.Headers) (k v key : pystr) :
  forallb (fun kv => negb (str_eqb (lower (fst kv)) (lower key))) before
  = true ->
  lower k = lower key ->
  requests.getitem (before ++ (k, v) :: after) key = Some v.
Proof.
  intros Hbefore Hk.
  induction before as [|[k0 v0] before IH]; cbn [app requests.getitem].
  - rewrite Hk. now rewrite (proj2 (str_eqb_eq _ _) eq_refl).
  - cbn [forallb fst] in Hbefore.
    apply andb_true_iff in Hbefore as [Hk0 Hrest].
    apply negb_true_iff in Hk0. rewrite Hk0. now apply IH.
Qed.

(** X9: [response.content.mimeType] of a built entry is the value of the
    first response header whose name is Content-Type whatever the case of
    its letters, and the empty text when the response has no such header. *)
Theorem X9_response_mime_type (clock : Z) (start : datetime)
  (req : requests.Request.t Any) (resp : requests.Response.t)
  (e : har.Entry.t) :
  requests_to_har_entry chk nf prepare clock start req resp = Ok e ->
  (forallb (fun kv => negb (str_eqb (lower (fst kv)) (lit "content-type")))
     (requests.Response.headers resp) = true ->
   har.ResponseContent.mimeType
     (har.Response.content (har.Entry.response e)) = [])
  /\ (forall before after k v,
        requests.Response.headers resp = before ++ (k, v) :: after ->
        forallb
          (fun kv => negb (str_eqb (lower (fst kv)) (lit "content-type")))
          before = true ->
        lower k = lit "content-type" ->
        har.ResponseContent.mimeType
          (har.Response.content (har.Entry.response e)) = v).
Proof.
  intros He.
  apply requests_to_har_entry_value in He
    as (p & u & enc & body & pd & enc' & _ & _ & _ & _ & ->).
  cbn [har.Entry.response har.Response.content har.ResponseContent.mimeType].
  split.
  - intros Hnone.
    now rewrite (getitem_absent _ (lit "Content-Type") Hnone).
  - intros before after k v Hh Hbefore Hk. rewrite Hh.
    now rewrite (getitem_first before after k v (lit "Content-Type")
                   Hbefore Hk).
Qed.

(** X10: a built entry holds one Record for every header and every cookie
    of the request and of the response, in their order and with their names
    and values unchanged: nothing is merged, dropped or reordered. *)
Theorem X10_records_in_order (clock : Z) (start : datetime)
  (req : requests.Request.t Any) (resp : requests.Response.t)
  (e : har.Entry.t) (p : requests.PreparedRequest.t) :
  requests_to_har_entry chk nf prepare clock start req resp = Ok e ->
  prepare req = Ok p ->
  map har.unpack (har.Request.headers (har.Entry.request e)) = headers_of p
  /\ map har.unpack (har.Request.cookies (har.Entry.request e))
     = map (fun c => (requests.cookie_name c, requests.cookie_value c))
         (requests.PreparedRequest._cookies p)
  /\ map har.unpack (har.Response.headers (har.Entry.response e))
     = requests.Response.headers resp
  /\ map har.unpack (har.Response.cookies (har.Entry.response e))
     = map (fun c => (requests.cookie_name c, requests.cookie_value c))
         (requests.Response.cookies resp).
Proof.
  intros He Hp.
  apply requests_to_har_entry_value in He
    as (p' & u & enc & body & pd & enc' & Hp' & _ & _ & _ & ->).
  rewrite Hp in Hp'. injection Hp' as <-.
  cbn [har.Entry.request har.Entry.response har.Request.headers
         har.Request.cookies har.Response.headers har.Response.cookies].
  assert (Hrec : forall h, map har.unpack (map to_record h) = h).
  { intros h. rewrite map_map. rewrite <- (map_id h) at 2.
    apply map_ext. now intros [k v]. }
  repeat split.
  - unfold header_records, headers_of.
    destruct (requests.PreparedRequest.headers p); [apply Hrec|reflexivity].
  - now rewrite map_map.
  - apply Hrec.
  - now rewrite map_map.
Qed.


End BuilderFields.

(** ** The query string as Records *)


Lemma values_for_app (name : pystr) (a b : list (pystr * pystr)) :
  values_for name (a ++ b) = values_for name a ++ values_for name b.
Proof. unfold values_for. now rewrite filter_app, map_app. Qed.

Lemma values_for_other_key (name k : pystr) (vs : list pystr) :
  str_eqb name k = false ->
  values_for name (map (fun v => (k, v)) vs) = [].
Proof.
  intros H. unfold values_for.
  induction vs as [|v vs IH]; [reflexivity|].
  cbn [map filter fst]. now rewrite H.
Qed.

Lemma values_for_same_key (k : pystr) (vs : list pystr) :
  values_for k (map (fun v => (k, v)) vs) = vs.
Proof.
  unfold values_for.
  induction vs as [|v vs IH]; [reflexivity|].
  cbn [map filter fst]. rewrite (proj2 (str_eqb_eq k k) eq_refl).
  cbn [map snd]. now rewrite IH.
Qed.

Lemma values_for_absent_key (name : pystr) (d : qs_dict) :
  ~ In name (map fst d) -> values_for name (pairs_of d) = [].
Proof.
  induction d as [|[k vs] d IH]; [reflexivity|].
  cbn [map fst In]. intros Hnot.
  unfold pairs_of. cbn [flat_map fst snd]. fold (pairs_of d).
  rewrite values_for_app, IH by tauto.
  rewrite values_for_other_key; [reflexivity|].
  destruct (str_eqb name k) eqn:E; [|reflexivity].
  apply str_eqb_eq in E. subst. tauto.
Qed.

Lemma dict_add_keys (d : qs_dict) (n v : pystr) :
  forall k, In k (map fst (dict_add d n v)) <-> In k (map fst d) \/ k = n.
Proof.
  induction d as [|[k0 vs] d IH]; intros k; cbn [dict_add map fst In].
  - intuition congruence.
  - destruct (str_eqb n k0) eqn:E; cbn [map fst In].
    + apply str_eqb_eq in E. subst. intuition congruence.
    + rewrite IH. tauto.
Qed.

Lemma dict_add_nodup (d : qs_dict) (n v : pystr) :
  NoDup (map fst d) -> NoDup (map fst (dict_add d n v)).
Proof.
  induction d as [|[k0 vs] d IH]; intros Hd; cbn [dict_add map fst].
  - constructor; [intros []|constructor].
  - cbn [map fst] in Hd. apply NoDup_cons_iff in Hd as [Hnot Hrest].
    destruct (str_eqb n k0) eqn:E; cbn [map fst].
    + constructor; assumption.
    + constructor; [|now apply IH].
      intros Hin. apply dict_add_keys in Hin as [Hin| ->]; [tauto|].
      rewrite (proj2 (str_eqb_eq n n) eq_refl) in E. discriminate.
Qed.

Lemma dict_add_pairs (d : qs_dict) (n v : pystr) :
  Permutation (pairs_of (dict_add d n v)) (pairs_of d ++ [(n, v)]).
Proof.
  induction d as [|[k0 vs] d IH]; cbn [dict_add].
  - apply Permutation_refl.
  - destruct (str_eqb n k0) eqn:E.
    + apply str_eqb_eq in E. subst k0.
      unfold pairs_of. cbn [flat_map fst snd]. fold (pairs_of d).
      rewrite map_app. cbn [map]. rewrite <- !app_assoc.
      apply Permutation_app_head. apply Permutation_app_comm.
    + unfold pairs_of. cbn [flat_map fst snd].
      fold (pairs_of d). fold (pairs_of (dict_add d n v)).
      rewrite <- app_assoc. now apply Permutation_app_head.
Qed.

Lemma dict_add_values_for (d : qs_dict) (n v name : pystr) :
  NoDup (map fst d) ->
  values_for name (pairs_of (dict_add d n v))
  = values_for name (pairs_of d) ++ values_for name [(n, v)].
Proof.
  induction d as [|[k0 vs] d IH]; intros Hd; cbn [dict_add].
  - reflexivity.
  - cbn [map fst] in Hd. apply NoDup_cons_iff in Hd as [Hnot Hrest].
    destruct (str_eqb n k0) eqn:E.
    + apply str_eqb_eq in E. subst k0.
      unfold pairs_of. cbn [flat_map fst snd]. fold (pairs_of d).
      rewrite map_app, !values_for_app. cbn [map].
      destruct (str_eqb name n) eqn:En.
      * apply str_eqb_eq in En. subst name.
        rewrite (values_for_absent_key n d Hnot).
        now rewrite !app_nil_r.
      * assert (Hnv : values_for name [(n, v)] = []).
        { unfold values_for. cbn [filter fst]. now rewrite En. }
        rewrite Hnv. now rewrite !app_nil_r.
    + unfold pairs_of. cbn [flat_map fst snd].
      fold (pairs_of d). fold (pairs_of (dict_add d n v)).
      rewrite !values_for_app, (IH Hrest). now rewrite app_assoc.
Qed.

Lemma fold_dict_add_spec (pairs : list (pystr * pystr)) (d : qs_dict) :
  NoDup (map fst d) ->
  let d' := fold_left (fun d nv => dict_add d (fst nv) (snd nv)) pairs d in
  NoDup (map fst d')
  /\ Permutation (pairs_of d') (pairs_of d ++ pairs)
  /\ forall name,
       values_for name (pairs_of d')
       = values_for name (pairs_of d) ++ values_for name pairs.
Proof.
  revert d; induction pairs as [|[n v] pairs IH]; intros d Hd; cbn zeta.
  - cbn [fold_left]. rewrite app_nil_r. repeat split; auto.
    intros name. unfold values_for at 3. cbn. now rewrite app_nil_r.
  - cbn [fold_left fst snd].
    destruct (IH (dict_add d n v) (dict_add_nodup d n v Hd))
      as (Hnd & Hperm & Hvals).
    split; [exact Hnd|]. split.
    + eapply Permutation_trans; [exact Hperm|].
      change ((n, v) :: pairs) with ([(n, v)] ++ pairs).
      rewrite app_assoc. apply Permutation_app_tail. apply dict_add_pairs.
    + intros name. rewrite Hvals, (dict_add_values_for d n v name Hd).
      change ((n, v) :: pairs) with ([(n, v)] ++ pairs).
      now rewrite values_for_app, app_assoc.
Qed.

Lemma query_records_pairs (d : qs_dict) :
  map har.unpack (query_records d) = pairs_of d.
Proof.
  unfold query_records, pairs_of.
  induction d as [|[k vs] d IH]; [reflexivity|].
  cbn [flat_map fst snd]. rewrite map_app, IH, map_map. reflexivity.
Qed.

Section QueryRecords.

Context {Any PrepareExn : Type}.
Variables (chk nf : pystr -> bool).
Variable prepare :
  requests.Request.t Any -> result PrepareExn requests.PreparedRequest.t.

(** X11: the Records of [request.queryString] are the name and value pairs
    that [parse_qsl] reads in the query string, every one of them once,
    gathered name by name: the Records of one name stand together, each
    name's values keep the order they have in the query string, and only
    the order between different names can change. *)
Theorem X11_query_records_grouped (clock : Z) (start : datetime)
  (req : requests.Request.t Any) (resp : requests.Response.t)
  (e : har.Entry.t) (p : requests.PreparedRequest.t) (u : SplitResult) :
  requests_to_har_entry chk nf prepare clock start req resp = Ok e ->
  prepare req = Ok p ->
  urlsplit chk nf (requests.PreparedRequest.url p) = Some u ->
  Permutation
    (map har.unpack (har.Request.queryString (har.Entry.request e)))
    (parse_qsl (query u))
  /\ (forall name,
        values_for name
          (map har.unpack (har.Request.queryString (har.Entry.request e)))
        = values_for name (parse_qsl (query u)))
  /\ exists d : qs_dict,
       NoDup (map fst d)
       /\ map har.unpack (har.Request.queryString (har.Entry.request e))
          = flat_map (fun k_vs => map (fun v => (fst k_vs, v)) (snd k_vs)) d.
Proof.
  intros He Hp Hu.
  apply requests_to_har_entry_ok in He
    as (p' & u' & enc & body & pd & enc' & _ & Hp' & Hu' & _ & _ & _ & _ & _
        & Hreq & _).
  rewrite Hp in Hp'. injection Hp' as <-.
  rewrite Hu in Hu'. injection Hu' as <-.
  rewrite Hreq. cbn [har.Request.queryString].
  rewrite query_records_pairs. unfold parse_qs.
  destruct (fold_dict_add_spec (parse_qsl (query u)) [] (NoDup_nil _))
    as (Hnd & Hperm & Hvals).
  split; [exact Hperm|]. split; [exact Hvals|].
  eexists. split; [exact Hnd|reflexivity].
Qed.

End QueryRecords.

(** ** The recorded URL *)

Lemma delimiter_cases (d : codepoint) :
  plain_char d = false -> d = chr "?" \/ d = chr "#".
Proof.
  unfold plain_char. intros H. apply negb_false_iff, orb_true_iff in H.
  destruct H as [H|H]; apply N.eqb_eq in H; auto.
Qed.

Lemma forallb_skipn {A : Type} (p : A -> bool) (n : nat) (l : list A) :
  forallb p l = true -> forallb p (skipn n l) = true.
Proof.
  revert l; induction n as [|n IH]; intros [|x l]; cbn [skipn forallb];
    auto.
  intros H. apply andb_true_iff in H as [_ H]. now apply IH.
Qed.

Lemma forallb_lstrip_c0 (p : codepoint -> bool) (s : pystr) :
  forallb p s = true -> forallb p (lstrip_c0 s) = true.
Proof.
  induction s as [|c s IH]; [reflexivity|].
  cbn [lstrip_c0]. intros H. destruct (c <=? 0x20); [|exact H].
  cbn [forallb] in H. apply andb_true_iff in H as [_ H]. now apply IH.
Qed.

Lemma lstrip_c0_app (base rest : pystr) (d : codepoint) :
  (d <=? 0x20) = false ->
  lstrip_c0 (base ++ d :: rest) = lstrip_c0 base ++ d :: rest.
Proof.
  intros Hd. induction base as [|c base IH]; cbn [app lstrip_c0].
  - now rewrite Hd.
  - destruct (c <=? 0x20); [exact IH|reflexivity].
Qed.

Lemma split_once_absent (c : codepoint) (s : pystr) :
  forallb (fun x => negb (x =? c)) s = true -> split_once c s = None.
Proof.
  induction s as [|x s IH]; [reflexivity|].
  cbn [forallb split_once]. intros H.
  apply andb_true_iff in H as [Hx Hs]. apply negb_true_iff in Hx.
  now rewrite Hx, (IH Hs).
Qed.

(** Splitting at a character that comes first after [s]. *)
Lemma split_once_at (c : codepoint) (s rest : pystr) :
  forallb (fun x => negb (x =? c)) s = true ->
  split_once c (s ++ c :: rest) = Some (s, rest).
Proof.
  induction s as [|x s IH]; cbn [forallb app split_once].
  - intros _. now rewrite N.eqb_refl.
  - intros H. apply andb_true_iff in H as [Hx Hs].
    apply negb_true_iff in Hx. now rewrite Hx, (IH Hs).
Qed.

(** Splitting at a character other than the one that follows [s]. *)
Lemma split_once_app (c d : codepoint) (s rest : pystr) :
  (d =? c) = false ->
  split_once c (s ++ d :: rest)
  = match split_once c s with
    | Some (a, b) => Some (a, b ++ d :: rest)
    | None =>
        match split_once c rest with
        | Some (a, b) => Some (s ++ d :: a, b)
        | None => None
        end
    end.
Proof.
  intros Hd. induction s as [|x s IH]; cbn [app split_once].
  - rewrite Hd. now destruct (split_once c rest) as [[a b]|].
  - destruct (x =? c); [reflexivity|].
    rewrite IH. destruct (split_once c s) as [[a b]|]; [reflexivity|].
    now destruct (split_once c rest) as [[a b]|].
Qed.

Lemma plain_no_question (s : pystr) :
  forallb plain_char s = true ->
  forallb (fun x => negb (x =? chr "?")) s = true.
Proof.
  apply forallb_weaken. intros x. unfold plain_char.
  destruct (x =? chr "?"); [discriminate|reflexivity].
Qed.

Lemma plain_no_hash (s : pystr) :
  forallb plain_char s = true ->
  forallb (fun x => negb (x =? chr "#")) s = true.
Proof.
  apply forallb_weaken. intros x. unfold plain_char.
  destruct (x =? chr "?"), (x =? chr "#"); try discriminate; reflexivity.
Qed.

Lemma split_scheme_rest_plain (url : pystr) :
  forallb plain_char url = true ->
  forallb plain_char (snd (split_scheme url)) = true.
Proof.
  intros H. unfold split_scheme.
  destruct (split_once (chr ":") url) as [[[|c pre] r]|] eqn:E; try exact H.
  destruct (is_ascii_alpha c && forallb scheme_chars (c :: pre));
    [|exact H].
  apply split_once_some in E as [-> _]. cbn [snd].
  rewrite forallb_app in H. apply andb_true_iff in H as [_ H].
  cbn [forallb] in H. now apply andb_true_iff in H as [_ H].
Qed.

(** What follows the first [?] or [#] of a URL does not touch its scheme. *)
Lemma split_scheme_app (url rest : pystr) (d : codepoint) :
  plain_char d = false ->
  split_scheme (url ++ d :: rest)
  = (fst (split_scheme url), snd (split_scheme url) ++ d :: rest).
Proof.
  intros Hd.
  assert (Hcolon : (d =? chr ":") = false)
    by (destruct (delimiter_cases d Hd) as [-> | ->]; reflexivity).
  assert (Halpha : is_ascii_alpha d = false)
    by (destruct (delimiter_cases d Hd) as [-> | ->]; reflexivity).
  assert (Hsch : scheme_chars d = false)
    by (destruct (delimiter_cases d Hd) as [-> | ->]; reflexivity).
  unfold split_scheme. rewrite (split_once_app _ d url rest Hcolon).
  destruct (split_once (chr ":") url) as [[[|c pre] r]|] eqn:E.
  - reflexivity.
  - destruct (is_ascii_alpha c && forallb scheme_chars (c :: pre));
      reflexivity.
  - destruct (split_once (chr ":") rest) as [[a b]|]; [|reflexivity].
    destruct url as [|c url]; cbn [app].
    + now rewrite Halpha.
    + cbn [forallb]. rewrite forallb_app. cbn [forallb]. rewrite Hsch.
      now rewrite andb_false_r, !andb_false_r.
Qed.

Lemma span_until_app (p : codepoint -> bool) (s rest : pystr)
  (d : codepoint) :
  p d = true ->
  span_until p (s ++ d :: rest)
  = (fst (span_until p s), snd (span_until p s) ++ d :: rest).
Proof.
  intros Hd. induction s as [|c s IH]; cbn [app span_until].
  - now rewrite Hd.
  - destruct (p c); [reflexivity|].
    rewrite IH. now destruct (span_until p s).
Qed.

Lemma starts_with_2slashes_app (url rest : pystr) (d : codepoint) :
  plain_char d = false ->
  starts_with_2slashes (url ++ d :: rest) = starts_with_2slashes url.
Proof.
  intros Hd. unfold starts_with_2slashes.
  destruct url as [|a [|b url]]; cbn [app firstn].
  - destruct (delimiter_cases d Hd) as [-> | ->]; now destruct rest.
  - change (lit "//") with [47; 47]. cbn [str_eqb].
    destruct (delimiter_cases d Hd) as [-> | ->];
      now rewrite !andb_false_r.
  - reflexivity.
Qed.

Lemma split_netloc_step_app (url rest : pystr) (d : codepoint) :
  plain_char d = false ->
  split_netloc_step (url ++ d :: rest)
  = (fst (split_netloc_step url),
     snd (split_netloc_step url) ++ d :: rest).
Proof.
  intros Hd. unfold split_netloc_step.
  rewrite (starts_with_2slashes_app url rest d Hd).
  destruct (starts_with_2slashes url) eqn:E; [|reflexivity].
  unfold splitnetloc.
  destruct url as [|a [|b url]]; [discriminate E| |].
  { unfold starts_with_2slashes in E. cbn [firstn] in E.
    change (lit "//") with [47; 47] in E. cbn [str_eqb] in E.
    rewrite andb_false_r in E. discriminate E. }
  cbn [app skipn]. apply span_until_app.
  destruct (delimiter_cases d Hd) as [-> | ->]; reflexivity.
Qed.

Lemma span_until_rest_plain (p : codepoint -> bool) (s : pystr) :
  forallb plain_char s = true ->
  forallb plain_char (snd (span_until p s)) = true.
Proof.
  induction s as [|c s IH]; [reflexivity|].
  cbn [span_until]. intros H. destruct (p c); [exact H|].
  cbn [forallb] in H. apply andb_true_iff in H as [_ H].
  specialize (IH H). now destruct (span_until p s).
Qed.

Lemma split_netloc_step_rest_plain (url : pystr) :
  forallb plain_char url = true ->
  forallb plain_char (snd (split_netloc_step url)) = true.
Proof.
  intros H. unfold split_netloc_step.
  destruct (starts_with_2slashes url); [|exact H].
  unfold splitnetloc. apply span_until_rest_plain. now apply forallb_skipn.
Qed.

(** Line 45, step by step. *)
Lemma urlsplit_steps (chk nf : pystr -> bool) (url0 : pystr) :
  urlsplit chk nf url0
  = let s := split_scheme (remove_unsafe (lstrip_c0 url0)) in
    let n := split_netloc_step (snd s) in
    let f := split_at (chr "#") (snd n) in
    let q := split_at (chr "?") (fst f) in
    if ipv6_brackets_ok chk (fst n) && checknetloc nf (fst n)
    then Some (mkSplitResult (fst s) (fst n) (fst q) (snd q) (snd f))
    else None.
Proof.
  unfold urlsplit, split_netloc_step.
  destruct (split_scheme (remove_unsafe (lstrip_c0 url0))) as [sch url1].
  cbn [fst snd].
  destruct (if starts_with_2slashes url1 then splitnetloc url1
            else ([], url1)) as [nl url2].
  cbn [fst snd].
  destruct (split_at (chr "#") url2) as [url3 frag]. cbn [fst snd].
  destruct (split_at (chr "?") url3) as [url4 q]. reflexivity.
Qed.

(** The path of a URL is what stands before its first [?] or [#]. *)
Lemma split_path_app (url rest : pystr) (d : codepoint) :
  forallb plain_char url = true ->
  plain_char d = false ->
  fst (split_at (chr "?") (fst (split_at (chr "#") (url ++ d :: rest))))
  = url
  /\ fst (split_at (chr "?") (fst (split_at (chr "#") url))) = url.
Proof.
  intros Hurl Hd.
  pose proof (plain_no_question url Hurl) as Hq.
  pose proof (plain_no_hash url Hurl) as Hh.
  split.
  - destruct (delimiter_cases d Hd) as [-> | ->].
    + unfold split_at at 2.
      rewrite (split_once_app (chr "#") (chr "?") url rest eq_refl).
      rewrite (split_once_absent _ _ Hh).
      destruct (split_once (chr "#") rest) as [[a b]|]; cbn [fst];
        unfold split_at; now rewrite (split_once_at _ _ _ Hq).
    + unfold split_at at 2. rewrite (split_once_at _ _ _ Hh). cbn [fst].
      unfold split_at. now rewrite (split_once_absent _ _ Hq).
  - unfold split_at. rewrite (split_once_absent _ _ Hh). cbn [fst].
    now rewrite (split_once_absent _ _ Hq).
Qed.

(** X13: the URL recorded for a request does not depend on what its URL
    holds from the first [?] or [#] on: a URL and the same URL followed by
    any query string or fragment are recorded alike, and are refused by
    [urlsplit] alike. *)
Theorem X13_query_and_fragment_ignored (chk nf : pystr -> bool)
  (base rest : pystr) (d : codepoint) :
  forallb plain_char base = true ->
  plain_char d = false ->
  option_map har_url (urlsplit chk nf (base ++ d :: rest))
  = option_map har_url (urlsplit chk nf base).
Proof.
  intros Hbase Hd.
  assert (Hspace : (d <=? 0x20) = false)
    by (destruct (delimiter_cases d Hd) as [-> | ->]; reflexivity).
  assert (Hunsafe : remove_unsafe (d :: rest) = d :: remove_unsafe rest)
    by (destruct (delimiter_cases d Hd) as [-> | ->]; reflexivity).
  rewrite !urlsplit_steps. cbv zeta.
  rewrite (lstrip_c0_app base rest d Hspace).
  replace (remove_unsafe (lstrip_c0 base ++ d :: rest))
    with (remove_unsafe (lstrip_c0 base) ++ d :: remove_unsafe rest)
    by (rewrite <- Hunsafe; unfold remove_unsafe; now rewrite filter_app).
  set (b := remove_unsafe (lstrip_c0 base)).
  assert (Hb : forallb plain_char b = true)
    by (apply forallb_filter, forallb_lstrip_c0, Hbase).
  rewrite (split_scheme_app b (remove_unsafe rest) d Hd). cbn [fst snd].
  pose proof (split_scheme_rest_plain b Hb) as Hb1.
  set (b1 := snd (split_scheme b)) in *.
  rewrite (split_netloc_step_app b1 (remove_unsafe rest) d Hd).
  cbn [fst snd].
  pose proof (split_netloc_step_rest_plain b1 Hb1) as Hb2.
  set (b2 := snd (split_netloc_step b1)) in *.
  destruct (split_path_app b2 (remove_unsafe rest) d Hb2 Hd) as [H1 H2].
  destruct (ipv6_brackets_ok chk (fst (split_netloc_step b1))
            && checknetloc nf (fst (split_netloc_step b1)));
    [|reflexivity].
  cbn [option_map]. unfold har_url. cbn [scheme netloc path].
  now rewrite H1, H2.
Qed.

Lemma span_until_rest_head (p : codepoint -> bool) (s : pystr) :
  snd (span_until p s) = []
  \/ exists c t, snd (span_until p s) = c :: t /\ p c = true.
Proof.
  induction s as [|c s IH]; [now left|].
  cbn [span_until]. destruct (p c) eqn:Hc.
  - right. now exists c, s.
  - destruct (span_until p s) as [a b]. exact IH.
Qed.

Lemma split_at_head (c x : codepoint) (t : pystr) :
  (x =? c) = false -> exists y, fst (split_at c (x :: t)) = x :: y.
Proof.
  intros Hx. unfold split_at. cbn [split_once]. rewrite Hx.
  destruct (split_once c t) as [[a b]|]; eexists; reflexivity.
Qed.

(** After a network location the path is empty or begins with a slash. *)
Lemma path_after_netloc (url2 : pystr) :
  url2 = [] \/ (exists c t, url2 = c :: t /\ is_netloc_delim c = true) ->
  let p := fst (split_at (chr "?") (fst (split_at (chr "#") url2))) in
  p = [] \/ exists t, p = chr "/" :: t.
Proof.
  intros [-> | (c & t & -> & Hc)]; cbv zeta; [now left|].
  unfold is_netloc_delim in Hc.
  apply orb_true_iff in Hc as [Hc|Hc];
    [apply orb_true_iff in Hc as [Hc|Hc]|]; apply N.eqb_eq in Hc; subst c.
  - destruct (split_at_head (chr "#") (chr "/") t eq_refl) as [y ->].
    destruct (split_at_head (chr "?") (chr "/") y eq_refl) as [z ->].
    right. now exists z.
  - destruct (split_at_head (chr "#") (chr "?") t eq_refl) as [y ->].
    left. unfold split_at. cbn [split_once].
    change (chr "?" =? chr "?") with true. reflexivity.
  - left. unfold split_at at 2. cbn [split_once].
    change (chr "#" =? chr "#") with true. reflexivity.
Qed.

(** X14: when the URL of a request names a network location, the recorded
    URL is the scheme that [urlsplit] found, with its colon (nothing for a
    URL without scheme), two slashes, the network location, and the path,
    which is empty or begins with a slash: no slash is added between the
    two, and an empty path stays empty. *)
Theorem X14_recorded_url_with_host (chk nf : pystr -> bool) (url : pystr)
  (r : SplitResult) :
  urlsplit chk nf url = Some r ->
  netloc r <> [] ->
  (path r = [] \/ exists t, path r = chr "/" :: t)
  /\ har_url r
     = (if is_empty (scheme r) then [] else scheme r ++ lit ":")
       ++ lit "//" ++ netloc r ++ path r.
Proof.
  rewrite urlsplit_steps. cbv zeta.
  set (s := split_scheme (remove_unsafe (lstrip_c0 url))).
  destruct (ipv6_brackets_ok chk (fst (split_netloc_step (snd s)))
            && checknetloc nf (fst (split_netloc_step (snd s))));
    [|discriminate].
  intros H. injection H as <-. cbn [netloc path scheme]. intros Hnl.
  assert (Hpath :
    let p := fst (split_at (chr "?")
                    (fst (split_at (chr "#")
                            (snd (split_netloc_step (snd s)))))) in
    p = [] \/ exists t, p = chr "/" :: t).
  { apply path_after_netloc. unfold split_netloc_step in *.
    destruct (starts_with_2slashes (snd s)); [|now contradiction Hnl].
    unfold splitnetloc. apply span_until_rest_head. }
  cbv zeta in Hpath. split; [exact Hpath|].
  unfold har_url, urlunparse, urlunsplit. cbn [scheme netloc path is_empty].
  cbv iota. cbn [negb]. cbv iota.
  destruct (fst (split_netloc_step (snd s))) as [|n0 nl];
    [now contradiction Hnl|].
  cbn [is_empty negb orb]. cbv iota.
  destruct Hpath as [-> | [t ->]].
  - cbn [is_empty negb andb]. cbv iota.
    destruct (fst s); cbn [is_empty negb]; cbv iota;
      [reflexivity | now rewrite <- app_assoc].
  - cbn [is_empty negb andb firstn].
    change (str_eqb [chr "/"] (lit "/")) with true. cbn [negb]. cbv iota.
    destruct (fst s); cbn [is_empty negb]; cbv iota;
      [reflexivity | now rewrite <- app_assoc].
Qed.

(** ** TestClient.request: the trace *)

Section ClientFurther.

Context {Any PrepareExn TransportExn Env : Type}.
Variables (chk nf : pystr -> bool).
Variable prepare :
  requests.Request.t Any -> result PrepareExn requests.PreparedRequest.t.
Variable clock : Env -> Z.
Variable urljoin : pystr -> pystr -> pystr.
Variable super_request :
  pystr -> Call.t Any -> Env -> result TransportExn requests.Response.t * Env.

(** What one call does to the client, whatever its outcome. *)
Lemma request_outcome (self self' : TestClient) (a : Call.t Any)
  (env env' : Env)
  (r : result (request_error PrepareExn TransportExn) requests.Response.t) :
  request chk nf prepare clock urljoin super_request self a env
  = (r, self', env') ->
  env' = snd (super_request (base_url self) a env)
  /\ match r with
     | Ok resp =>
         fst (super_request (base_url self) a env) = Ok resp
         /\ closed (har_writer self) = false
         /\ exists entry,
              requests_to_har_entry chk nf prepare (clock env')
                (now_utc (clock env)) (build_request urljoin self a) resp
              = Ok entry
              /\ self' = recorded self entry
     | Err _ => self' = self
     end.
Proof.
  unfold request, write_entry, recorded.
  destruct (super_request (base_url self) a env) as [[resp|ex] env1];
    cbn [fst snd].
  - destruct (requests_to_har_entry chk nf prepare (clock env1)
                (now_utc (clock env)) (build_request urljoin self a) resp)
      as [entry|ex] eqn:Hb.
    + destruct (closed (har_writer self)) eqn:Hc;
        intros H; injection H as <- <- <-.
      * now split.
      * split; [reflexivity|]. split; [reflexivity|]. split; [reflexivity|].
        exists entry. now split.
    + intros H; injection H as <- <- <-. now split.
  - intros H; injection H as <- <- <-. now split.
Qed.



(** X17: after any number of calls on one client, raising ones among them,
    the writer holds the entries it held before followed by exactly one
    entry for each call that returned, in call order, each with the status
    and the text of the response returned by its call; the calls that raised
    left nothing; path and state of the writer are as before. *)
Theorem X17_one_entry_per_returned_call (self self' : TestClient)
  (outcomes : list (result (request_error PrepareExn TransportExn)
                      requests.Response.t)) :
  calls_made chk nf prepare clock urljoin super_request self outcomes self' ->
  exists es,
    entries (har_writer self') = entries (har_writer self) ++ es
    /\ map (fun e => (har.Response.status (har.Entry.response e),
                      har.ResponseContent.text
                        (har.Response.content (har.Entry.response e)))) es
       = map (fun r => (requests.Response.status_code r,
                        requests.Response.text r)) (returned outcomes)
    /\ List.length es = List.length (returned outcomes)
    /\ path_ (har_writer self') = path_ (har_writer self)
    /\ closed (har_writer self') = closed (har_writer self).
Proof.
  induction 1 as [self|self self1 self2 a env env1 r rs Hcall Hrest IH].
  - exists []. rewrite app_nil_r. repeat split; reflexivity.
  - destruct IH as (es & Hes & Hmap & Hlen & Hpath & Hclosed).
    apply request_outcome in Hcall as [_ Hr].
    destruct r as [resp|ex].
    + destruct Hr as (_ & _ & e & Hb & ->).
      apply requests_to_har_entry_value in Hb
        as (p & u & enc & body & pd & enc' & _ & _ & _ & _ & ->).
      eexists (_ :: es). cbn [returned map List.length].
      rewrite Hes, Hmap, Hlen, Hpath, Hclosed.
      cbn [recorded har_writer entries path_ closed].
      rewrite <- app_assoc.
      repeat split; reflexivity.
    + subst self1. exists es. cbn [returned].
      repeat split; assumption.
Qed.

End ClientFurther.

(** ** TestClient.__init__: the trace file *)

Lemma app_same_length {A : Type} (a b x y : list A) :
  List.length a = List.length b -> a ++ x = b ++ y -> a = b /\ x = y.
Proof.
  revert b; induction a as [|c a IH]; intros [|d b] Hlen H;
    try discriminate Hlen.
  - now split.
  - cbn in H. injection H as -> H. injection Hlen as Hlen.
    destruct (IH b Hlen H) as [-> ->]. now split.
Qed.

Lemma last_chars_length (n : nat) (s : pystr) :
  List.length (last_chars n s) = Nat.min n (List.length s).
Proof.
  unfold last_chars. rewrite length_skipn. lia.
Qed.

Lemma last_chars_suffix (n : nat) (s : pystr) :
  exists front, s = front ++ last_chars n s.
Proof.
  exists (firstn (List.length s - n) s). unfold last_chars.
  now rewrite firstn_skipn.
Qed.

(** X18: a client made with [har_file_path] writes to that file, whatever
    the clock and the UUID; without it, two clients write to the same file
    exactly when they were made within the same minute of the local clock
    (the two [strftime] texts, of one width, are equal) and the decimal
    texts of their UUIDs end in the same five digits; the file name is
    ["akita_trace_"], the minute, an underscore, at most five characters
    taken from the end of the UUID text, and [".har"]. *)
Theorem X18_trace_file_names (u1 u2 now1 now2 : pystr) :
  List.length now1 = List.length now2 ->
  (trace_file u1 now1 = trace_file u2 now2
   <-> now1 = now2 /\ last_chars 5 u1 = last_chars 5 u2)
  /\ (exists front,
        u1 = front ++ last_chars 5 u1
        /\ List.length (last_chars 5 u1) = Nat.min 5 (List.length u1)
        /\ trace_file u1 now1
           = lit "akita_trace_" ++ now1 ++ lit "_" ++ last_chars 5 u1
             ++ lit ".har")
  /\ (forall given base,
        path_ (har_writer (init (Some given) u1 now1 base)) = given).
Proof.
  intros Hlen. split; [|split].
  - unfold trace_file, init, open_writer. cbn [har_writer path_]. split.
    + intros H. apply app_inv_head in H.
      apply app_same_length in H as [Hnow H]; [|exact Hlen].
      apply app_inv_head in H. apply app_inv_tail in H. now split.
    + intros [-> ->]. reflexivity.
  - destruct (last_chars_suffix 5 u1) as [front Hfront].
    exists front. split; [exact Hfront|].
    split; [apply last_chars_length|reflexivity].
  - reflexivity.
Qed.

(** ** The further properties at work on the stand-ins *)

Lemma X4_post_data_and_body_size_witness :
  exists e,
    simple_entry 1001500 aware_start note_request json_response = Ok e
    /\ (har.Request.postData (har.Entry.request e) = None
        <-> har.Request.bodySize (har.Entry.request e) = 0%Z)
    /\ (forall pd,
          har.Request.postData (har.Entry.request e) = Some pd ->
          har.Request.bodySize (har.Entry.request e)
          = len (har.PostData.text pd)
          /\ (0 < har.Request.bodySize (har.Entry.request e))%Z).
Proof.
  eexists. split; [vm_compute; reflexivity|].
  eapply (X4_post_data_and_body_size netloc_passes netloc_passes
            simple_prepare 1001500 aware_start note_request json_response).
  vm_compute; reflexivity.
Defined.

Lemma X5_high_octet_body_rejected_witness :
  exists p b,
    simple_prepare accent_request = Ok p
    /\ requests.PreparedRequest.body p = Some (requests.BodyBytes b)
    /\ existsb (fun x => 128 <=? x) b = true
    /\ simple_entry 1001500 aware_start accent_request json_response
       = Err BodyNotDecodable.
Proof.
  do 2 eexists.
  split; [vm_compute; reflexivity|].
  split; [vm_compute; reflexivity|].
  split; [vm_compute; reflexivity|].
  eapply (X5_high_octet_body_rejected netloc_passes netloc_passes
            simple_prepare 1001500 aware_start accent_request json_response);
    try (vm_compute; reflexivity); vm_compute; discriminate.
Defined.

Lemma X6_missing_content_type_witness :
  exists p h,
    simple_prepare bare_request = Ok p
    /\ requests.PreparedRequest.body p = Some (requests.BodyBytes (lit "abc"))
    /\ utf7_decode (lit "abc") = Some (lit "abc")
    /\ requests.PreparedRequest.headers p = Some h
    /\ h = [(lit "Accept", lit "*/*")]
    /\ simple_entry 1001500 aware_start bare_request json_response
       = Err MissingContentType.
Proof.
  do 2 eexists.
  split; [vm_compute; reflexivity|].
  split; [vm_compute; reflexivity|].
  split; [vm_compute; reflexivity|].
  split; [vm_compute; reflexivity|].
  split; [vm_compute; reflexivity|].
  eapply (X6_missing_content_type netloc_passes netloc_passes
            simple_prepare 1001500 aware_start bare_request json_response);
    try (vm_compute; reflexivity); vm_compute; discriminate.
Defined.

Lemma X7_response_headers_size_witness :
  exists e,
    simple_entry 1001500 aware_start note_request json_response = Ok e
    /\ har.Response.headersSize (har.Entry.response e) = 30%Z
    /\ (len (header_block (requests.Response.headers json_response))
        <= har.Response.headersSize (har.Entry.response e)
        <= 4 * len (header_block (requests.Response.headers json_response)))%Z.
Proof.
  eexists. split; [vm_compute; reflexivity|].
  edestruct (X7_response_headers_size netloc_passes netloc_passes
               simple_prepare 1001500 aware_start note_request json_response)
    as (Hsize & _ & Hbounds).
  - vm_compute; reflexivity.
  - split; [|exact Hbounds]. rewrite Hsize. vm_compute; reflexivity.
Defined.


Lemma X9_response_mime_type_witness :
  exists e,
    simple_entry 1001500 aware_start note_request json_response = Ok e
    /\ har.ResponseContent.mimeType
         (har.Response.content (har.Entry.response e))
       = lit "application/json".
Proof.
  eexists. split; [vm_compute; reflexivity|].
  edestruct (X9_response_mime_type netloc_passes netloc_passes
               simple_prepare 1001500 aware_start note_request json_response)
    as [_ Hfirst].
  - vm_compute; reflexivity.
  - apply (Hfirst [] [] (lit "Content-Type") (lit "application/json"));
      reflexivity.
Defined.

Lemma X10_records_in_order_witness :
  exists e p,
    simple_entry 1001500 aware_start note_request json_response = Ok e
    /\ simple_prepare note_request = Ok p
    /\ map har.unpack (har.Request.headers (har.Entry.request e))
       = headers_of p
    /\ map har.unpack (har.Request.cookies (har.Entry.request e))
       = map (fun c => (requests.cookie_name c, requests.cookie_value c))
           (requests.PreparedRequest._cookies p)
    /\ map har.unpack (har.Response.headers (har.Entry.response e))
       = requests.Response.headers json_response
    /\ map har.unpack (har.Response.cookies (har.Entry.response e))
       = map (fun c => (requests.cookie_name c, requests.cookie_value c))
           (requests.Response.cookies json_response).
Proof.
  do 2 eexists.
  split; [vm_compute; reflexivity|].
  split; [vm_compute; reflexivity|].
  eapply (X10_records_in_order netloc_passes netloc_passes simple_prepare
            1001500 aware_start note_request json_response);
    vm_compute; reflexivity.
Defined.

Lemma X11_query_records_grouped_witness :
  exists e p u,
    simple_entry 1001500 aware_start search_request json_response = Ok e
    /\ simple_prepare search_request = Ok p
    /\ urlsplit netloc_passes netloc_passes (requests.PreparedRequest.url p)
       = Some u
    /\ query u = lit "a=1&a=2&b=3"
    /\ Permutation
         (map har.unpack (har.Request.queryString (har.Entry.request e)))
         (parse_qsl (query u))
    /\ values_for (lit "a")
         (map har.unpack (har.Request.queryString (har.Entry.request e)))
       = values_for (lit "a") (parse_qsl (query u)).
Proof.
  do 3 eexists.
  split; [vm_compute; reflexivity|].
  split; [vm_compute; reflexivity|].
  split; [vm_compute; reflexivity|].
  split; [vm_compute; reflexivity|].
  edestruct (X11_query_records_grouped netloc_passes netloc_passes
               simple_prepare 1001500 aware_start search_request
               json_response)
    as (Hperm & Hvalues & _).
  - vm_compute; reflexivity.
  - vm_compute; reflexivity.
  - vm_compute; reflexivity.
  - split; [exact Hperm|apply Hvalues].
Defined.


Lemma X13_query_and_fragment_ignored_witness :
  forallb plain_char (lit "http://testserver/items") = true
  /\ plain_char (chr "?") = false
  /\ option_map har_url
       (urlsplit netloc_passes netloc_passes
          (lit "http://testserver/items" ++ chr "?" :: lit "x=1#top"))
     = option_map har_url
         (urlsplit netloc_passes netloc_passes
            (lit "http://testserver/items")).
Proof.
  split; [vm_compute; reflexivity|].
  split; [vm_compute; reflexivity|].
  apply (X13_query_and_fragment_ignored netloc_passes netloc_passes
           (lit "http://testserver/items") (lit "x=1#top") (chr "?"));
    vm_compute; reflexivity.
Defined.

Lemma X14_recorded_url_with_host_witness :
  exists r,
    urlsplit netloc_passes netloc_passes (lit "http://testserver/items?x=1")
    = Some r
    /\ netloc r = lit "testserver"
    /\ (path r = [] \/ exists t, path r = chr "/" :: t)
    /\ har_url r
       = (if is_empty (scheme r) then [] else scheme r ++ lit ":")
         ++ lit "//" ++ netloc r ++ path r.
Proof.
  eexists. split; [vm_compute; reflexivity|].
  split; [vm_compute; reflexivity|].
  eapply (X14_recorded_url_with_host netloc_passes netloc_passes
            (lit "http://testserver/items?x=1"));
    [vm_compute; reflexivity | vm_compute; discriminate].
Defined.



Lemma X17_one_entry_per_returned_call_witness :
  exists self' es,
    calls_made netloc_passes netloc_passes simple_prepare (fun t : Z => t)
      simple_urljoin json_server testserver
      [Err (RecordingFailed MissingContentType); Ok json_response;
       Ok json_response] self'
    /\ entries (har_writer self') = entries (har_writer testserver) ++ es
    /\ List.length es = 2%nat
    /\ map (fun e => (har.Response.status (har.Entry.response e),
                      har.ResponseContent.text
                        (har.Response.content (har.Entry.response e)))) es
       = [(200%Z, ok_true); (200%Z, ok_true)].
Proof.
  assert (Hcalls : exists self',
    calls_made netloc_passes netloc_passes simple_prepare (fun t : Z => t)
      simple_urljoin json_server testserver
      [Err (RecordingFailed MissingContentType); Ok json_response;
       Ok json_response] self').
  { eexists.
    eapply (one_more_call _ _ _ _ _ _ _ _ _ _ _ _ _ post_abc 1000000%Z);
      [vm_compute; reflexivity|].
    eapply (one_more_call _ _ _ _ _ _ _ _ _ _ _ _ _ get_items 1002000%Z);
      [vm_compute; reflexivity|].
    eapply (one_more_call _ _ _ _ _ _ _ _ _ _ _ _ _ get_items 1004000%Z);
      [vm_compute; reflexivity|].
    apply no_call. }
  destruct Hcalls as [self' Hcalls].
  destruct (X17_one_entry_per_returned_call netloc_passes netloc_passes
              simple_prepare (fun t : Z => t) simple_urljoin json_server
              _ _ _ Hcalls)
    as (es & Hentries & Hmap & Hlen & _ & _).
  exists self', es. split; [exact Hcalls|]. split; [exact Hentries|].
  split; [exact Hlen|exact Hmap].
Defined.

Lemma X18_trace_file_names_witness :
  List.length (lit "231104_1530") = List.length (lit "231104_1530")
  /\ (trace_file (lit "236220808863862617160699797595931354831")
        (lit "231104_1530")
      = trace_file (lit "98154831") (lit "231104_1530")
      <-> lit "231104_1530" = lit "231104_1530"
          /\ last_chars 5 (lit "236220808863862617160699797595931354831")
             = last_chars 5 (lit "98154831"))
  /\ trace_file (lit "236220808863862617160699797595931354831")
       (lit "231104_1530")
     = lit "akita_trace_231104_1530_54831.har".
Proof.
  split; [reflexivity|].
  destruct (X18_trace_file_names
              (lit "236220808863862617160699797595931354831")
              (lit "98154831") (lit "231104_1530") (lit "231104_1530")
              eq_refl)
    as (Hiff & (front & _ & _ & Hname) & _).
  split; [exact Hiff|]. rewrite Hname. vm_compute; reflexivity.
Defined.
